(** * agent_template.py: the AgentBridge HTTP client

    A shallow embedding of [src/agent_template.py].  The client is a thin
    wrapper: every method builds a JSON body, performs HTTP round trips
    against [self.host]/[self.port] and unwraps a field of the decoded
    answer.  The embedding keeps

    - Python values as the JSON-shaped type [value] (what [json.loads]
      returns and what [json.dumps] accepts),
    - dicts as insertion-ordered association lists,
    - the instance as its attribute dict ([self.__dict__]),
    - effects as a state-and-exception monad whose state is the instance
      together with the list of requests put on the wire, and
    - the bridge (the server side) as an oracle that answers a request
      knowing all requests sent before it.

    Python [str] is rendered as [string]; one [ascii] stands for one
    character (code points below 256). *)

From Stdlib Require Import ZArith List String Ascii Bool Lia.
From Stdlib Require Import SpecFloat DecimalString.
Import ListNotations.
Local Open Scope string_scope.
Local Open Scope Z_scope.

(** ** Python values *)

Set Warnings "-register-all".

Inductive value : Type :=
| VNone
| VBool (b : bool)
| VInt (z : Z)
| VFloat (f : spec_float)
| VStr (s : string)
| VList (l : list value)
| VDict (d : list (string * value)).

Definition dict : Type := list (string * value).

(** [bool(v)]: the truth value Python gives to [v]. *)
Definition truthy (v : value) : bool :=
  match v with
  | VNone => false
  | VBool b => b
  | VInt z => negb (z =? 0)
  | VFloat (S754_zero _) => false
  | VFloat _ => true
  | VStr EmptyString => false
  | VStr _ => true
  | VList [] => false
  | VList _ => true
  | VDict [] => false
  | VDict _ => true
  end.

(** [d.get(k)] on a dict, as an option. *)
Fixpoint dict_lookup (d : dict) (k : string) : option value :=
  match d with
  | [] => None
  | (k', v) :: d' => if String.eqb k' k then Some v else dict_lookup d' k
  end.

(** [d.get(k, default)]. *)
Definition dict_get (d : dict) (k : string) (default : value) : value :=
  match dict_lookup d k with
  | Some v => v
  | None => default
  end.

(** [d[k] = v]: an existing key keeps its place, a new key goes last. *)
Fixpoint dict_set (d : dict) (k : string) (v : value) : dict :=
  match d with
  | [] => [(k, v)]
  | (k', v') :: d' =>
      if String.eqb k' k then (k', v) :: d' else (k', v') :: dict_set d' k v
  end.

Definition dict_keys (d : dict) : list string := map fst d.

(** ** Strings *)

Definition chr (n : nat) : string := String (ascii_of_nat n) EmptyString.
Definition dquote : string := chr 34.
Definition newline : string := chr 10.

Definition str_of_Z (z : Z) : string := NilZero.string_of_int (Z.to_int z).

Fixpoint str_rev_onto (s acc : string) : string :=
  match s with
  | EmptyString => acc
  | String c s' => str_rev_onto s' (String c acc)
  end.

Definition str_rev (s : string) : string := str_rev_onto s EmptyString.

(** [s.endswith(suffix)]. *)
Definition endswith (s suffix : string) : bool :=
  String.prefix (str_rev suffix) (str_rev s).

(** [str.isspace] on one character, for code points below 256. *)
Definition isspace (c : ascii) : bool :=
  let n := nat_of_ascii c in
  ((9 <=? n) && (n <=? 13) || (28 <=? n) && (n <=? 32)
   || (n =? 133) || (n =? 160))%nat.

Fixpoint lstrip (s : string) : string :=
  match s with
  | EmptyString => EmptyString
  | String c s' => if isspace c then lstrip s' else s
  end.

(** [s.strip()]. *)
Definition strip (s : string) : string := str_rev (lstrip (str_rev (lstrip s))).

(** [s[:n]]. *)
Fixpoint str_take (n : nat) (s : string) : string :=
  match n, s with
  | S n', String c s' => String c (str_take n' s')
  | _, _ => EmptyString
  end.

(** [sep.join(l)] on a list of strings. *)
Fixpoint str_join (sep : string) (l : list string) : string :=
  match l with
  | [] => EmptyString
  | [s] => s
  | s :: l' => s ++ sep ++ str_join sep l'
  end.

Fixpoint str_chars (s : string) : list string :=
  match s with
  | EmptyString => []
  | String c s' => String c EmptyString :: str_chars s'
  end.

(** ** Module constants *)

Definition BRIDGE_PORTS : list Z := [3131; 3132; 3133; 3134].
Definition BRIDGE_HOST : string := "127.0.0.1".
Definition DEFAULT_TIMEOUT : Z := 300.

(** ** Exceptions *)

(** What an exchange raises from beneath the client, other than
    [JSONDecodeError]: the connection or the socket fails
    ([http.client] over a socket), or [json.loads] gives up on the bytes
    it was handed -- [UnicodeDecodeError] on bytes that are not UTF-8,
    [ValueError] on an integer literal that is too long,
    [RecursionError] on nesting that is too deep.  All of them are
    [Exception]s. *)
Inductive net_error : Type :=
| ConnectionRefusedError
| TimeoutError
| RemoteDisconnected
| UnicodeDecodeError
| ValueError
| RecursionError
| OtherNetError (name : string).

(** The two [BridgeError] messages of the module, kept structured:
    [RequestFailed verb path detail] is
    [f"{verb} {path} failed: {detail}"], and [NoBridgeFound ports] is the
    message of [_discover_port]. *)
Inductive bridge_msg : Type :=
| RequestFailed (verb path : string) (detail : value)
| NoBridgeFound (ports : list Z).

Inductive exn : Type :=
| BridgeError (m : bridge_msg)
| NetError (e : net_error)
| JSONDecodeError
| AttributeError (attr : string)
| KeyError (key : string)
| TypeError (what : string).

Definition is_BridgeError (e : exn) : bool :=
  match e with BridgeError _ => true | _ => false end.

(** ** The wire *)

Record request : Type := mkRequest {
  rq_verb : string;
  rq_host : value;
  rq_port : value;
  rq_timeout : Z;
  rq_path : string;
  rq_body : option dict;
  rq_headers : list (string * string)
}.

(** What comes back for one request.  [Fails e]: the exchange raises [e],
    in [c.request], [c.getresponse], [read] or inside [json.loads].
    [Responds status body]: a response arrives under [status]; [Some v]
    is the value [json.loads] makes of its body, and [None] is a body
    that [json.loads] reads as text and rejects as malformed JSON, which
    is the one case where it raises [JSONDecodeError]. *)
Inductive outcome : Type :=
| Fails (e : net_error)
| Responds (status : Z) (body : option value).

(** The bridge: it answers a request knowing the requests sent before. *)
Definition network : Type := list request -> request -> outcome.

(** ** State and the monad *)

Record state : Type := mkState {
  self : dict;
  sent : list request
}.

Inductive result (A : Type) : Type :=
| Ok (a : A)
| Raise (e : exn).
Arguments Ok {A} a.
Arguments Raise {A} e.

Definition M (A : Type) : Type := state -> result A * state.

Definition ret {A} (a : A) : M A := fun st => (Ok a, st).

Definition raise {A} (e : exn) : M A := fun st => (Raise e, st).

Definition bind {A B} (m : M A) (k : A -> M B) : M B :=
  fun st =>
    match m st with
    | (Ok a, st') => k a st'
    | (Raise e, st') => (Raise e, st')
    end.

Declare Scope py_scope.
Delimit Scope py_scope with py.
Notation "x <- m ;; k" := (bind m (fun x => k))
  (at level 100, m at next level, right associativity) : py_scope.
Notation "m ;;; k" := (bind m (fun _ => k))
  (at level 100, right associativity) : py_scope.
Local Open Scope py_scope.

(** [try: m except Exception: handler].  Every [exn] is an [Exception]
    in Python, so the handler takes them all; what [m] did to the state
    before it raised stays done. *)
Definition try_except {A} (m : M A) (handler : M A) : M A :=
  fun st =>
    match m st with
    | (Ok a, st') => (Ok a, st')
    | (Raise _, st') => handler st'
    end.

(** [self.name]. *)
Definition getattr (name : string) : M value :=
  fun st =>
    match dict_lookup (self st) name with
    | Some v => (Ok v, st)
    | None => (Raise (AttributeError name), st)
    end.

(** [self.name = v]. *)
Definition setattr (name : string) (v : value) : M unit :=
  fun st => (Ok tt, mkState (dict_set (self st) name v) (sent st)).

(** [v.get(k, default)]: only a dict has the method. *)
Definition py_get (v : value) (k : string) (default : value) : M value :=
  match v with
  | VDict d => ret (dict_get d k default)
  | _ => raise (AttributeError "get")
  end.

(** [v[k]]. *)
Definition py_getitem (v : value) (k : string) : M value :=
  match v with
  | VDict d =>
      match dict_lookup d k with
      | Some x => ret x
      | None => raise (KeyError k)
      end
  | _ => raise (TypeError "not subscriptable")
  end.

(** [v[k] = x], giving the updated object. *)
Definition py_setitem (v : value) (k : string) (x : value) : M value :=
  match v with
  | VDict d => ret (VDict (dict_set d k x))
  | _ => raise (TypeError "item assignment")
  end.

(** [iter(v)]: a list gives its items, a string its characters, a dict
    its keys; nothing else can be iterated. *)
Definition py_iter (v : value) : M (list value) :=
  match v with
  | VList l => ret l
  | VStr s => ret (map VStr (str_chars s))
  | VDict d => ret (map VStr (dict_keys d))
  | _ => raise (TypeError "not iterable")
  end.

(** [v.strip()]: only a string has the method. *)
Definition py_strip (v : value) : M string :=
  match v with
  | VStr s => ret (strip s)
  | _ => raise (AttributeError "strip")
  end.

Fixpoint all_strs (l : list value) : option (list string) :=
  match l with
  | [] => Some []
  | VStr s :: l' =>
      match all_strs l' with
      | Some r => Some (s :: r)
      | None => None
      end
  | _ :: _ => None
  end.

(** [sep.join(v)]: [v] must iterate over strings. *)
Definition py_join (sep : string) (v : value) : M string :=
  l <- py_iter v ;;
  match all_strs l with
  | Some ss => ret (str_join sep ss)
  | None => raise (TypeError "join")
  end.

(** ** The client *)

(** An [http.client.HTTPConnection] object before it is used: the
    constructor only records where to connect. *)
Record connection : Type := HTTPConnection {
  c_host : value;
  c_port : value;
  c_timeout : Z
}.

Definition json_headers : list (string * string) :=
  [("Content-Type", "application/json")].

(** [bool] arguments and optional lists as Python values. *)
Definition opt_files (o : option (list string)) : value :=
  match o with
  | None => VNone
  | Some l => VList (map VStr l)
  end.

Section Client.

Variable net : network.

(** [c.request(verb, path, body, headers)] followed by
    [json.loads(c.getresponse().read())]: one round trip.  The request
    goes on the wire whatever comes back, and what is raised on the way,
    by the transport or by [json.loads], is raised here as it is.
    [json.dumps(body).encode()]
    cannot fail on a [dict] of [value]s, and [c.close()] has no effect
    that is observed here, so neither is spelled out. *)
Definition exchange (c : connection) (verb path : string)
    (body : option dict) (headers : list (string * string)) : M (Z * value) :=
  fun st =>
    let r := mkRequest verb (c_host c) (c_port c) (c_timeout c) path body headers in
    let st' := mkState (self st) (sent st ++ [r]) in
    match net (sent st) r with
    | Fails e => (Raise (NetError e), st')
    | Responds _ None => (Raise JSONDecodeError, st')
    | Responds status (Some data) => (Ok (status, data), st')
    end.

Definition _conn : M connection :=
  host <- getattr "host" ;;
  port <- getattr "port" ;;
  ret (HTTPConnection host port (DEFAULT_TIMEOUT + 10)).

Definition _raw_get (port : Z) (path : string) : M value :=
  host <- getattr "host" ;;
  resp <- exchange (HTTPConnection host (VInt port) 10) "GET" path None [] ;;
  ret (snd resp).

(** The [for p in BRIDGE_PORTS] loop of [_discover_port]: the [try]
    block decides whether [p] is returned, [except Exception: pass] goes
    on to the next port, and the [raise] after the loop ends it. *)
Fixpoint discover_loop (ports : list Z) : M Z :=
  match ports with
  | [] => raise (BridgeError (NoBridgeFound BRIDGE_PORTS))
  | p :: rest =>
      found <- try_except
                 (data <- _raw_get p "/health" ;;
                  ok <- py_get data "ok" VNone ;;
                  ret (truthy ok))
                 (ret false) ;;
      if found then ret p else discover_loop rest
  end.

Definition _discover_port : M Z := discover_loop BRIDGE_PORTS.

(** [port or self._discover_port()]: [None] and [0] are falsy. *)
Definition __init__ (host : string) (port : option Z) : M unit :=
  setattr "host" (VStr host) ;;;
  p <- match port with
       | Some p => if truthy (VInt p) then ret p else _discover_port
       | None => _discover_port
       end ;;
  setattr "port" (VInt p).

Definition _get (path : string) : M value :=
  c <- _conn ;;
  resp <- exchange c "GET" path None [] ;;
  let status := fst resp in
  let data := snd resp in
  ok <- py_get data "ok" VNone ;;
  if negb (truthy ok) && (400 <=? status) then
    detail <- py_get data "error" data ;;
    raise (BridgeError (RequestFailed "GET" path detail))
  else ret data.

Definition _post (path : string) (body : dict) (timeout : Z) : M value :=
  host <- getattr "host" ;;
  port <- getattr "port" ;;
  let c := HTTPConnection host port (timeout + 10) in
  resp <- exchange c "POST" path (Some body) json_headers ;;
  let status := fst resp in
  let data := snd resp in
  ok <- py_get data "ok" VNone ;;
  if negb (truthy ok) && (400 <=? status) then
    detail <- py_get data "error" data ;;
    raise (BridgeError (RequestFailed "POST" path detail))
  else ret data.

(** *** Health / info *)

Definition health : M value := _get "/health".

Definition workspace_info : M value := _get "/workspace-info".

Definition log : M value :=
  r <- _get "/log" ;; py_get r "entries" (VList []).

(** *** LLM / Copilot *)

Definition prompt (prompt model system : string) (timeout : Z)
    (context_files : option (list string)) : M value :=
  let body := [("prompt", VStr prompt); ("timeout", VInt timeout)] in
  let body := if truthy (VStr model)
              then dict_set body "model" (VStr model) else body in
  let body := if truthy (VStr system)
              then dict_set body "system" (VStr system) else body in
  let body := if truthy (opt_files context_files)
              then dict_set body "context_files" (opt_files context_files)
              else body in
  result <- _post "/prompt" body (timeout + 10) ;;
  py_get result "text" (VStr EmptyString).

Definition copilot_task (prompt : string) (auto_accept : bool)
    (watch_secs timeout : Z) (context_files : option (list string))
    (model : string) : M value :=
  let body := [("prompt", VStr prompt); ("auto_accept", VBool auto_accept);
               ("watch_secs", VInt watch_secs); ("timeout", VInt timeout)] in
  let body := if truthy (opt_files context_files)
              then dict_set body "context_files" (opt_files context_files)
              else body in
  let body := if truthy (VStr model)
              then dict_set body "model" (VStr model) else body in
  _post "/copilot-task" body (timeout + watch_secs + 30).

(** *** Filesystem *)

Definition read_file (path : string) : M value :=
  r <- _get ("/read-file?path=" ++ path) ;;
  py_get r "content" (VStr EmptyString).

Definition write_file (path content : string) (create_dirs : bool) : M value :=
  r <- _post "/write-file"
         [("path", VStr path); ("content", VStr content);
          ("create_dirs", VBool create_dirs)] DEFAULT_TIMEOUT ;;
  py_get r "bytes" (VInt 0).

Definition apply_edit (path old_text new_text : string) : M value :=
  r <- _post "/apply-edit"
         [("path", VStr path); ("old_text", VStr old_text);
          ("new_text", VStr new_text)] DEFAULT_TIMEOUT ;;
  py_get r "ok" (VBool false).

Definition list_dir (path : string) : M value :=
  r <- _get ("/list-dir?path=" ++ path) ;;
  py_get r "entries" (VList []).

(** *** Terminal *)

Definition run_terminal (command cwd : string) (capture_output : bool)
    (timeout : Z) : M value :=
  let body := [("command", VStr command);
               ("capture_output", VBool capture_output)] in
  let body := if truthy (VStr cwd)
              then dict_set body "cwd" (VStr cwd) else body in
  let body := if capture_output
              then dict_set body "timeout" (VInt timeout) else body in
  _post "/run-terminal" body (timeout + 15).

Definition run_and_capture (command cwd : string) (timeout : Z) : M string :=
  result <- run_terminal command cwd true timeout ;;
  out <- py_get result "stdout" (VStr EmptyString) ;;
  py_strip out.

(** *** Editor *)

Definition open_file (path : string) (line : Z) : M value :=
  let body := [("path", VStr path)] in
  let body := if truthy (VInt line)
              then dict_set body "line" (VInt line) else body in
  r <- _post "/open-file" body DEFAULT_TIMEOUT ;;
  py_get r "ok" (VBool false).

Definition diagnostics (path : string) : M value :=
  let qs := if truthy (VStr path) then "?path=" ++ path else EmptyString in
  _get ("/diagnostics" ++ qs).

Definition exec_command (command : string) (args : list value) : M value :=
  r <- _post "/exec-command"
         [("command", VStr command); ("args", VList args)] DEFAULT_TIMEOUT ;;
  py_get r "result" VNone.

Definition show_message (message level : string) : M value :=
  r <- _post "/show-message"
         [("message", VStr message); ("level", VStr level)] DEFAULT_TIMEOUT ;;
  py_get r "ok" (VBool false).

(** *** Dialog auto-dismiss *)

Definition keep_going : M value :=
  r <- _post "/keep-going" [] DEFAULT_TIMEOUT ;;
  py_get r "commands_run" (VList []).

Definition auto_dismiss (active : bool) (interval_ms : Z) : M value :=
  r <- _post "/auto-dismiss"
         [("active", VBool active); ("interval_ms", VInt interval_ms)]
         DEFAULT_TIMEOUT ;;
  py_get r "active" (VBool active).

Definition auto_dismiss_status : M value :=
  r <- _get "/auto-dismiss" ;; py_get r "active" (VBool false).

(** *** Change tracking *)

Definition watch_start (label : string) : M value :=
  r <- _post "/watch-start" [("label", VStr label)] DEFAULT_TIMEOUT ;;
  py_get r "watch_id" (VStr EmptyString).

Definition watch_result (watch_id : string) : M value :=
  r <- _get ("/watch-result?id=" ++ watch_id) ;;
  py_get r "files" (VList []).

Definition changes_since (timestamp_ms : Z) : M value :=
  r <- _get ("/changes-since?ts=" ++ str_of_Z timestamp_ms) ;;
  py_get r "files" (VList []).

Definition pending_approvals : M value :=
  r <- _get "/pending-approvals" ;; py_get r "files" (VList []).

Definition accept_edits : M value :=
  r <- _post "/accept-edits" [] DEFAULT_TIMEOUT ;;
  py_get r "ok" (VBool false).

Definition reject_edits : M value :=
  r <- _post "/reject-edits" [] DEFAULT_TIMEOUT ;;
  py_get r "ok" (VBool false).

(** *** Integrations *)

Definition slack_post (text channel : string) : M value :=
  let body := [("text", VStr text)] in
  let body := if truthy (VStr channel)
              then dict_set body "channel" (VStr channel) else body in
  r <- _post "/slack-post" body DEFAULT_TIMEOUT ;;
  py_get r "ok" (VBool false).

Definition desktop_type (app text window_title : string) (delay_ms : Z)
    : M value :=
  let body := [("app", VStr app); ("text", VStr text);
               ("delay_ms", VInt delay_ms)] in
  let body := if truthy (VStr window_title)
              then dict_set body "window_title" (VStr window_title)
              else body in
  r <- _post "/desktop-type" body DEFAULT_TIMEOUT ;;
  py_get r "ok" (VBool false).

(** *** High-level helpers *)

(** The [for f in result["files_changed"]] loop of [ask_then_run]; it
    yields the final [output], which starts as the empty string. *)
Fixpoint run_first_loop (files : list value) : M string :=
  match files with
  | [] => ret EmptyString
  | VStr f :: rest =>
      if endswith f ".py" then
        run_and_capture ("python " ++ dquote ++ f ++ dquote) EmptyString 120
      else if endswith f ".js" then
        run_and_capture ("node " ++ dquote ++ f ++ dquote) EmptyString 120
      else run_first_loop rest
  | _ :: _ => raise (AttributeError "endswith")
  end.

(** The Slack text of [ask_then_run]. *)
Definition slack_summary (joined output : string) : string :=
  let msg := "Task complete." ++ newline ++ "Changed: "
             ++ (if truthy (VStr joined) then joined else "none") in
  if truthy (VStr output)
  then msg ++ newline ++ "Output:" ++ newline ++ "```" ++ newline
       ++ str_take 500 output ++ newline ++ "```"
  else msg.

Definition ask_then_run (task_description : string)
    (run_result slack_report : bool) : M value :=
  result <- copilot_task task_description true 60 DEFAULT_TIMEOUT None
              EmptyString ;;
  output <- (if run_result then
               changed <- py_get result "files_changed" VNone ;;
               if truthy changed then
                 fs <- py_getitem result "files_changed" ;;
                 files <- py_iter fs ;;
                 run_first_loop files
               else ret EmptyString
             else ret EmptyString) ;;
  (if slack_report then
     changed <- py_get result "files_changed" (VList []) ;;
     joined <- py_join ", " changed ;;
     slack_post (slack_summary joined output) EmptyString ;;;
     ret tt
   else ret tt) ;;;
  py_setitem result "run_output" (VStr output).

End Client.

(** ** The public interface *)

(** One constructor per public method, with the arguments the method
    takes; an argument left out in Python is its default here. *)
Inductive call : Type :=
| Health
| WorkspaceInfo
| Log
| Prompt (prompt model system : string) (timeout : Z)
         (context_files : option (list string))
| CopilotTask (prompt : string) (auto_accept : bool) (watch_secs timeout : Z)
              (context_files : option (list string)) (model : string)
| ReadFile (path : string)
| WriteFile (path content : string) (create_dirs : bool)
| ApplyEdit (path old_text new_text : string)
| ListDir (path : string)
| RunTerminal (command cwd : string) (capture_output : bool) (timeout : Z)
| RunAndCapture (command cwd : string) (timeout : Z)
| OpenFile (path : string) (line : Z)
| Diagnostics (path : string)
| ExecCommand (command : string) (args : list value)
| ShowMessage (message level : string)
| KeepGoing
| AutoDismiss (active : bool) (interval_ms : Z)
| AutoDismissStatus
| WatchStart (label : string)
| WatchResult (watch_id : string)
| ChangesSince (timestamp_ms : Z)
| PendingApprovals
| AcceptEdits
| RejectEdits
| SlackPost (text channel : string)
| DesktopType (app text window_title : string) (delay_ms : Z)
| AskThenRun (task_description : string) (run_result slack_report : bool).

Definition invoke (net : network) (c : call) : M value :=
  match c with
  | Health => health net
  | WorkspaceInfo => workspace_info net
  | Log => log net
  | Prompt p m s t cf => prompt net p m s t cf
  | CopilotTask p a w t cf m => copilot_task net p a w t cf m
  | ReadFile p => read_file net p
  | WriteFile p c d => write_file net p c d
  | ApplyEdit p o n => apply_edit net p o n
  | ListDir p => list_dir net p
  | RunTerminal c d o t => run_terminal net c d o t
  | RunAndCapture c d t => s <- run_and_capture net c d t ;; ret (VStr s)
  | OpenFile p l => open_file net p l
  | Diagnostics p => diagnostics net p
  | ExecCommand c a => exec_command net c a
  | ShowMessage m l => show_message net m l
  | KeepGoing => keep_going net
  | AutoDismiss a i => auto_dismiss net a i
  | AutoDismissStatus => auto_dismiss_status net
  | WatchStart l => watch_start net l
  | WatchResult w => watch_result net w
  | ChangesSince t => changes_since net t
  | PendingApprovals => pending_approvals net
  | AcceptEdits => accept_edits net
  | RejectEdits => reject_edits net
  | SlackPost t c => slack_post net t c
  | DesktopType a t w d => desktop_type net a t w d
  | AskThenRun t r s => ask_then_run net t r s
  end.

(** [AgentBridge(host, port)]: [__init__] run on a fresh instance.  The
    instance exists only when [__init__] returns. *)
Definition AgentBridge (net : network) (host : string) (port : option Z)
    (wire : list request) : result dict * list request :=
  match __init__ net host port (mkState [] wire) with
  | (Ok _, st) => (Ok (self st), sent st)
  | (Raise e, st) => (Raise e, sent st)
  end.

(** ** What a round trip hands back *)

(** The verdict of [_get]/[_post] on what came back for their request. *)
Definition checked (verb path : string) (o : outcome) : result value :=
  match o with
  | Fails e => Raise (NetError e)
  | Responds _ None => Raise JSONDecodeError
  | Responds status (Some (VDict d)) =>
      if negb (truthy (dict_get d "ok" VNone)) && (400 <=? status)
      then Raise (BridgeError
                    (RequestFailed verb path (dict_get d "error" (VDict d))))
      else Ok (VDict d)
  | Responds _ (Some _) => Raise (AttributeError "get")
  end.

(** A failure response: a JSON object whose ["ok"] is falsy (or absent),
    under a status of 400 or more. *)
Definition failure_response (o : outcome) : bool :=
  match o with
  | Responds status (Some (VDict d)) =>
      negb (truthy (dict_get d "ok" VNone)) && (400 <=? status)
  | _ => false
  end.

Definition get_request (h p : value) (path : string) : request :=
  mkRequest "GET" h p (DEFAULT_TIMEOUT + 10) path None [].

Definition post_request (h p : value) (path : string) (body : dict)
    (timeout : Z) : request :=
  mkRequest "POST" h p (timeout + 10) path (Some body) json_headers.

(** The instance has its two attributes. *)
Definition bound (st : state) (h p : value) : Prop :=
  dict_lookup (self st) "host" = Some h /\ dict_lookup (self st) "port" = Some p.

Definition push (st : state) (r : request) : state :=
  mkState (self st) (sent st ++ [r]).

(** ** Traces *)

Local Open Scope list_scope.

(** The body [_get] and [_post] have in common: connect to
    [self.host]/[self.port], one exchange, then the check of ["ok"]
    against the status. *)
Definition round_trip (net : network) (verb path : string) (timeout : Z)
    (body : option dict) (headers : list (string * string)) : M value :=
  host <- getattr "host" ;;
  port <- getattr "port" ;;
  resp <- exchange net (HTTPConnection host port timeout) verb path
            body headers ;;
  ok <- py_get (snd resp) "ok" VNone ;;
  if negb (truthy ok) && (400 <=? fst resp) then
    detail <- py_get (snd resp) "error" (snd resp) ;;
    raise (BridgeError (RequestFailed verb path detail))
  else ret (snd resp).

(** A computation that leaves instance and wire alone, and that raises
    no [BridgeError]. *)
Definition quiet {A} (m : M A) : Prop :=
  forall st,
    snd (m st) = st /\
    forall e, fst (m st) = Raise e -> is_BridgeError e = false.

(** A bridge that answers the k-th request it sees with the k-th of
    [answers] and refuses every connection after that. *)
Definition script_net (answers : list outcome) : network :=
  fun wire _ => nth (List.length wire) answers (Fails ConnectionRefusedError).

(** The attribute dict of a built client. *)
Definition instance (h : string) (p : Z) : dict :=
  [("host", VStr h); ("port", VInt p)].

(** A client on the default host and first port, nothing sent yet. *)
Definition fresh : state := mkState (instance BRIDGE_HOST 3131) [].

Definition json_ok : value := VDict [("ok", VBool true)].

(** A bridge that reports three changed files, then the output of a
    command, then success. *)
Definition pipeline_net : network :=
  script_net
    [Responds 200 (Some (VDict [("ok", VBool true);
                                ("files_changed",
                                 VList [VStr "README.md"; VStr "x.js";
                                        VStr "y.py"])]));
     Responds 200 (Some (VDict [("stdout", VStr " hi ")]));
     Responds 200 (Some json_ok)].

(** A bridge that answers everything with status 500 and an empty
    object. *)
Definition failing_net : network :=
  fun _ _ => Responds 500 (Some (VDict [])).

(** [l1] is [l2] with some items left out. *)
Inductive sublist {A : Type} : list A -> list A -> Prop :=
| sublist_nil : sublist [] []
| sublist_skip x l1 l2 : sublist l1 l2 -> sublist l1 (x :: l2)
| sublist_keep x l1 l2 : sublist l1 l2 -> sublist (x :: l1) (x :: l2).

(** The verdict [_get]/[_post] reach on the answer to request [r] sent
    after [wire]. *)
Definition verdict (net : network) (wire : list request) (r : request)
    : result value :=
  checked (rq_verb r) (rq_path r) (net wire r).

(** Every request of [rs], sent in turn after [wire], was answered to
    the satisfaction of [_get]/[_post]. *)
Fixpoint all_ok (net : network) (wire rs : list request) : Prop :=
  match rs with
  | [] => True
  | r :: rs' =>
      (exists d, verdict net wire r = Ok d) /\ all_ok net (wire ++ [r]) rs'
  end.

(** A run that ended in exception [e]: either no answer was at fault and
    [e] is no [BridgeError], or the last request drew the verdict
    [Raise e] and all before it were fine. *)
Definition stopped (net : network) (wire rs : list request) (e : exn) : Prop :=
  (all_ok net wire rs /\ is_BridgeError e = false) \/
  exists pre r, rs = pre ++ [r] /\ all_ok net wire pre /\
                verdict net (wire ++ pre) r = Raise e.

(** The summary of a run of [m]: it leaves the instance alone, it only
    adds requests to the wire, all of them to [self.host]/[self.port] and
    with paths drawn in order from [paths]; it goes on after a good
    answer only; and when [must] is set and the instance has its two
    attributes, at least one request is sent. *)
Definition runs {A} (net : network) (must : bool) (paths : list string)
    (m : M A) : Prop :=
  forall st,
  exists rs,
    snd (m st) = mkState (self st) (sent st ++ rs) /\
    Forall (fun r => dict_lookup (self st) "host" = Some (rq_host r) /\
                     dict_lookup (self st) "port" = Some (rq_port r)) rs /\
    sublist (map rq_path rs) paths /\
    match fst (m st) with
    | Ok _ => all_ok net (sent st) rs
    | Raise e => stopped net (sent st) rs e
    end /\
    (must = true -> forall h p, bound st h p -> rs <> []).

(** Two runs, each against its own bridge, see the same instance fields
    and the same answers from here on. *)
Definition agree (net1 net2 : network) (st1 st2 : state) : Prop :=
  dict_lookup (self st1) "host" = dict_lookup (self st2) "host" /\
  dict_lookup (self st1) "port" = dict_lookup (self st2) "port" /\
  forall wire r, net1 (sent st1 ++ wire) r = net2 (sent st2 ++ wire) r.

Definition related {A} (net1 net2 : network) (m1 m2 : M A) : Prop :=
  forall st1 st2,
    agree net1 net2 st1 st2 ->
    fst (m1 st1) = fst (m2 st2) /\
    agree net1 net2 (snd (m1 st1)) (snd (m2 st2)).

Definition is_pipeline (c : call) : bool :=
  match c with AskThenRun _ _ _ => true | _ => false end.

(** The paths [ask_then_run] may request, in order. *)
Definition pipeline_paths (run_result slack_report : bool) : list string :=
  ["/copilot-task"]
  ++ (if run_result then ["/run-terminal"] else [])
  ++ (if slack_report then ["/slack-post"] else []).

(** ** Port discovery, as a scan *)

Definition probe (host : string) (p : Z) : request :=
  mkRequest "GET" (VStr host) (VInt p) 10 "/health" None [].

(** A probe is answered by a JSON object with a truthy ["ok"]. *)
Definition qualifies (o : outcome) : bool :=
  match o with
  | Responds _ (Some (VDict d)) => truthy (dict_get d "ok" VNone)
  | _ => false
  end.

(** Probe [ports] in order after [wire]: the first port whose answer
    qualifies, if any, and the wire afterwards. *)
Fixpoint scan (net : network) (host : string) (wire : list request)
    (ports : list Z) : option Z * list request :=
  match ports with
  | [] => (None, wire)
  | p :: rest =>
      if qualifies (net wire (probe host p))
      then (Some p, wire ++ [probe host p])
      else scan net host (wire ++ [probe host p]) rest
  end.

(** The body of a [/prompt] request: the two fixed keys, then the
    optional ones that are truthy. *)
Definition prompt_body (prompt model system : string) (timeout : Z)
    (context_files : option (list string)) : dict :=
  [("prompt", VStr prompt); ("timeout", VInt timeout)]
  ++ (if String.eqb model EmptyString then [] else [("model", VStr model)])
  ++ (if String.eqb system EmptyString then [] else [("system", VStr system)])
  ++ match context_files with
     | Some (f :: fs) => [("context_files", VList (map VStr (f :: fs)))]
     | _ => []
     end.

(** ** The pipeline, as the specification words it *)




(** ** Defaults of the unwrapping methods *)

(** The key a method unwraps from the answer and what it gives back when
    the key is missing. *)
Definition unwraps (c : call) : option (string * value) :=
  match c with
  | Log => Some ("entries", VList [])
  | Prompt _ _ _ _ _ => Some ("text", VStr EmptyString)
  | ReadFile _ => Some ("content", VStr EmptyString)
  | WriteFile _ _ _ => Some ("bytes", VInt 0)
  | ApplyEdit _ _ _ => Some ("ok", VBool false)
  | ListDir _ => Some ("entries", VList [])
  | RunAndCapture _ _ _ => Some ("stdout", VStr EmptyString)
  | OpenFile _ _ => Some ("ok", VBool false)
  | ExecCommand _ _ => Some ("result", VNone)
  | ShowMessage _ _ => Some ("ok", VBool false)
  | KeepGoing => Some ("commands_run", VList [])
  | AutoDismiss active _ => Some ("active", VBool active)
  | AutoDismissStatus => Some ("active", VBool false)
  | WatchStart _ => Some ("watch_id", VStr EmptyString)
  | WatchResult _ => Some ("files", VList [])
  | ChangesSince _ => Some ("files", VList [])
  | PendingApprovals => Some ("files", VList [])
  | AcceptEdits => Some ("ok", VBool false)
  | RejectEdits => Some ("ok", VBool false)
  | SlackPost _ _ => Some ("ok", VBool false)
  | DesktopType _ _ _ _ => Some ("ok", VBool false)
  | Health | WorkspaceInfo | CopilotTask _ _ _ _ _ _
  | RunTerminal _ _ _ _ | Diagnostics _ | AskThenRun _ _ _ => None
  end.

(** ** What discovery looks at *)

(** The decoded body of an answer, if there is one: all that
    [_raw_get] hands to [_discover_port]. *)
Definition payload (o : outcome) : option value :=
  match o with
  | Responds _ (Some v) => Some v
  | _ => None
  end.

(** A bridge where nothing listens: every connection fails with [e]. *)
Definition dead_net (e : net_error) : network := fun _ _ => Fails e.

(** The body of a [/run-terminal] request: the two fixed keys, then
    ["cwd"] when it is not empty, then ["timeout"] when output is
    captured. *)
Definition run_terminal_body (command cwd : string) (capture_output : bool)
    (timeout : Z) : dict :=
  [("command", VStr command); ("capture_output", VBool capture_output)]
  ++ (if String.eqb cwd EmptyString then [] else [("cwd", VStr cwd)])
  ++ (if capture_output then [("timeout", VInt timeout)] else []).

(** [s] neither starts nor ends with a whitespace character. *)
Definition trimmed (s : string) : Prop :=
  (forall c t, s = String c t -> isspace c = false) /\
  (forall c t, str_rev s = String c t -> isspace c = false).

(** The [/copilot-task] request of [ask_then_run]. *)
Definition pipeline_request (h p : value) (task_description : string)
    : request :=
  post_request h p "/copilot-task"
    [("prompt", VStr task_description); ("auto_accept", VBool true);
     ("watch_secs", VInt 60); ("timeout", VInt DEFAULT_TIMEOUT)]
    (DEFAULT_TIMEOUT + 60 + 30).

(** Values a [for] loop or [str.join] cannot go over. *)
Definition not_iterable (v : value) : bool :=
  match v with
  | VNone | VBool _ | VInt _ | VFloat _ => true
  | VStr _ | VList _ | VDict _ => false
  end.

(** ** The command-line smoke test *)

(** A printed line, kept in pieces: literal text, [str(v)] of a value,
    [repr] of a string, a number, the text of a [BridgeError]. *)
Inductive piece : Type :=
| Text (s : string)
| Shown (v : value)
| Quoted (s : string)
| Count (n : nat)
| Failure (m : bridge_msg).

Definition line : Type := list piece.

(** How the script ends: it runs to its end, it calls [sys.exit(code)],
    or an exception leaves it uncaught. *)
Inductive ending : Type :=
| Finished
| Exited (code : Z)
| Uncaught (e : exn).

(** Computations that also print. *)
Definition IO (A : Type) : Type :=
  list line -> state -> result A * list line * state.

Definition io_ret {A} (a : A) : IO A := fun out st => (Ok a, out, st).

Definition io_bind {A B} (m : IO A) (k : A -> IO B) : IO B :=
  fun out st =>
    match m out st with
    | (Ok a, out', st') => k a out' st'
    | (Raise e, out', st') => (Raise e, out', st')
    end.

Definition io_lift {A} (m : M A) : IO A :=
  fun out st =>
    match m st with
    | (r, st') => (r, out, st')
    end.

(** [print(...)]. *)
Definition print (l : line) : IO unit :=
  fun out st => (Ok tt, out ++ [l], st).

(** [len(v)]. *)
Definition py_len (v : value) : M nat :=
  match v with
  | VList l => ret (List.length l)
  | VStr s => ret (String.length s)
  | VDict d => ret (List.length d)
  | _ => raise (TypeError "len")
  end.

(** [l.index(x)] for an [x] that is in [l]. *)
Fixpoint index_of (x : string) (l : list string) : nat :=
  match l with
  | [] => 0
  | y :: l' => if String.eqb y x then 0 else S (index_of x l')
  end.

Definition default_question : string := "Say hello in one sentence.".

(** The question for Copilot: the words after the first [--prompt],
    or the default one when there are none. *)
Definition smoke_question (argv : list string) : string :=
  let idx := index_of "--prompt" argv in
  if (idx + 1 <? List.length argv)%nat
  then str_join " " (skipn (idx + 1) argv)
  else default_question.

Definition connecting_line : line :=
  [Text "Connecting to VS Code Agent Bridge..."].

Definition hint_line : line :=
  [Text "Make sure VS Code is running with the Agent Bridge extension installed."].

(** The [/health] request of the script, to the port found. *)
Definition health_request (p : Z) : request :=
  get_request (VStr BRIDGE_HOST) (VInt p) "/health".

(** The [try] block of the script. *)
Definition smoke_body (net : network) (argv : list string) : IO unit :=
  io_bind (io_lift (__init__ net BRIDGE_HOST None)) (fun _ =>
  io_bind (io_lift (health net)) (fun h =>
  io_bind (io_lift (py_getitem h "port")) (fun port =>
  io_bind (io_lift (py_getitem h "version")) (fun version =>
  io_bind (print [Text "Connected! Port="; Shown port;
                  Text "  Version="; Shown version]) (fun _ =>
  io_bind (io_lift (py_get h "models" (VList []))) (fun models =>
  io_bind (io_lift (py_len models)) (fun n =>
  io_bind (print [Text "Models available: "; Count n]) (fun _ =>
  io_bind (io_lift (py_get h "workspace" (VStr "N/A"))) (fun workspace =>
  io_bind (print [Text "Workspace: "; Shown workspace]) (fun _ =>
  if existsb (String.eqb "--prompt") argv then
    let q := smoke_question argv in
    io_bind (print [Text (newline ++ "Prompting Copilot: "); Quoted q])
      (fun _ =>
    io_bind (io_lift (prompt net q EmptyString EmptyString DEFAULT_TIMEOUT
                        None)) (fun answer =>
    print [Text "Response: "; Shown answer]))
  else io_ret tt)))))))))).

(** The script run with [sys.argv = argv]: what it prints, how it ends,
    and what it has sent.  [except BridgeError] prints two lines and
    exits with code 1; nothing else is caught. *)
Definition main (net : network) (argv : list string) (wire : list request)
    : list line * ending * list request :=
  match smoke_body net argv [connecting_line] (mkState [] wire) with
  | (Ok _, out, st) => (out, Finished, sent st)
  | (Raise (BridgeError m), out, st) =>
      (out ++ [[Text "ERROR: "; Failure m]; hint_line], Exited 1, sent st)
  | (Raise e, out, st) => (out, Uncaught e, sent st)
  end.



(** * Proofs *)

(** ** Strings *)

Lemma str_app_assoc (a b c : string) :
  ((a ++ b) ++ c)%string = (a ++ (b ++ c))%string.
Proof. induction a as [| x a IH]; cbn; [| rewrite IH]; reflexivity. Qed.

Lemma str_app_empty (s : string) : (s ++ EmptyString)%string = s.
Proof. induction s as [| c s IH]; cbn; [| rewrite IH]; reflexivity. Qed.

Lemma str_rev_onto_app (s acc : string) :
  str_rev_onto s acc = (str_rev s ++ acc)%string.
Proof.
  unfold str_rev. revert acc.
  induction s as [| c s IH]; intros acc; cbn; [reflexivity |].
  rewrite IH, (IH (String c EmptyString)), str_app_assoc. reflexivity.
Qed.

Lemma str_rev_app (a b : string) :
  str_rev (a ++ b)%string = (str_rev b ++ str_rev a)%string.
Proof.
  induction a as [| c a IH]; cbn.
  - rewrite str_app_empty. reflexivity.
  - change (str_rev (String c (a ++ b)))
      with (str_rev_onto (a ++ b) (String c EmptyString)).
    change (str_rev (String c a)) with (str_rev_onto a (String c EmptyString)).
    rewrite (str_rev_onto_app (a ++ b)), (str_rev_onto_app a).
    rewrite IH, str_app_assoc. reflexivity.
Qed.

Lemma str_rev_involutive (s : string) : str_rev (str_rev s) = s.
Proof.
  induction s as [| c s IH]; [reflexivity |].
  change (String c s) with (String c EmptyString ++ s)%string.
  rewrite !str_rev_app, IH. reflexivity.
Qed.

Lemma prefix_iff (p s : string) :
  String.prefix p s = true <-> exists t, s = (p ++ t)%string.
Proof.
  revert s. induction p as [| c p IH]; intros s.
  - split; [intros _; exists s; reflexivity | destruct s; reflexivity].
  - destruct s as [| c' s]; cbn.
    + split; [discriminate | intros [t Ht]; discriminate].
    + destruct (Ascii.ascii_dec c c') as [Hc | Hc].
      * split.
        -- intros H. apply IH in H. destruct H as [t ->]. subst c'. eauto.
        -- intros [t Ht]. injection Ht as _ ->. apply IH. eauto.
      * split; [discriminate |]. intros [t Ht]. congruence.
Qed.

(** [endswith] is Python's [str.endswith]: [s] is something followed by
    [suffix]. *)
Lemma endswith_iff (s suffix : string) :
  endswith s suffix = true <-> exists front, s = (front ++ suffix)%string.
Proof.
  unfold endswith. rewrite prefix_iff. split.
  - intros [t Ht]. exists (str_rev t).
    rewrite <- (str_rev_involutive s), Ht, str_rev_app, str_rev_involutive.
    reflexivity.
  - intros [front ->]. exists (str_rev front). apply str_rev_app.
Qed.

Example strip_examples :
  strip (" hi " ++ newline) = "hi" /\ strip "a  b" = "a  b" /\
  strip (newline ++ chr 9) = EmptyString.
Proof. repeat split; reflexivity. Qed.

(** ** The two request helpers *)

Lemma _get_eq (net : network) (path : string) (st : state) (h p : value) :
  bound st h p ->
  _get net path st =
    (checked "GET" path (net (sent st) (get_request h p path)),
     push st (get_request h p path)).
Proof.
  intros [Hh Hp]. unfold _get, _conn, bind, getattr, exchange, get_request, push.
  rewrite Hh, Hp. cbn.
  destruct (net _ _) as [e | status [[] |]]; cbn; try reflexivity.
  destruct (negb _ && _); reflexivity.
Qed.

Lemma _post_eq (net : network) (path : string) (body : dict) (timeout : Z)
    (st : state) (h p : value) :
  bound st h p ->
  _post net path body timeout st =
    (checked "POST" path (net (sent st) (post_request h p path body timeout)),
     push st (post_request h p path body timeout)).
Proof.
  intros [Hh Hp]. unfold _post, bind, getattr, exchange, post_request, push.
  rewrite Hh, Hp. cbn.
  destruct (net _ _) as [e | status [[] |]]; cbn; try reflexivity.
  destruct (negb _ && _); reflexivity.
Qed.

Lemma checked_failure_response (verb path : string) (o : outcome) :
  failure_response o = true ->
  exists m, checked verb path o = Raise (BridgeError m).
Proof.
  destruct o as [e | status [[] |]]; cbn; try discriminate.
  intros ->. eauto.
Qed.

Lemma checked_BridgeError (verb path : string) (o : outcome) (m : bridge_msg) :
  checked verb path o = Raise (BridgeError m) -> failure_response o = true.
Proof.
  destruct o as [e | status [[] |]]; cbn; try discriminate.
  destruct (negb _ && _); [reflexivity | discriminate].
Qed.

(** ** Lists with items left out *)

Lemma sublist_nil_l {A} (l : list A) : sublist [] l.
Proof. induction l; constructor; assumption. Qed.

Lemma sublist_refl {A} (l : list A) : sublist l l.
Proof. induction l; constructor; assumption. Qed.

Lemma sublist_app {A} (a b c d : list A) :
  sublist a b -> sublist c d -> sublist (a ++ c) (b ++ d).
Proof.
  intros Hab Hcd. induction Hab; cbn; try (constructor; assumption).
  assumption.
Qed.

Lemma sublist_app_l {A} (a b c : list A) : sublist a b -> sublist a (b ++ c).
Proof.
  intros H. rewrite <- (app_nil_r a).
  apply sublist_app; [assumption | apply sublist_nil_l].
Qed.

Lemma sublist_length {A} (a b : list A) :
  sublist a b -> (List.length a <= List.length b)%nat.
Proof. induction 1; cbn; lia. Qed.

Lemma sublist_In {A} (a b : list A) (x : A) : sublist a b -> In x a -> In x b.
Proof.
  induction 1; cbn; intros Hx; auto.
  destruct Hx; auto.
Qed.

Lemma sublist_NoDup {A} (a b : list A) : sublist a b -> NoDup b -> NoDup a.
Proof.
  induction 1; intros Hb; [constructor | |].
  - inversion Hb; auto.
  - inversion Hb; subst. constructor; auto.
    intros Hx. eapply sublist_In in Hx; eauto.
Qed.

Lemma NoDup_of_map {A B} (f : A -> B) (l : list A) :
  NoDup (map f l) -> NoDup l.
Proof.
  induction l as [| x l IH]; cbn; intros H; [constructor |].
  inversion H; subst. constructor; auto.
  intros Hx. apply H2. apply in_map. assumption.
Qed.

(** ** Computations that touch nothing *)

Create HintDb quiet.

Lemma quiet_ret {A} (a : A) : quiet (ret a).
Proof. intros st; split; [reflexivity | discriminate]. Qed.

Lemma quiet_raise {A} (e : exn) : is_BridgeError e = false -> quiet (@raise A e).
Proof.
  intros He st; split; [reflexivity |].
  intros e' H. injection H as <-. exact He.
Qed.

Lemma quiet_bind {A B} (m : M A) (k : A -> M B) :
  quiet m -> (forall a, quiet (k a)) -> quiet (bind m k).
Proof.
  intros Hm Hk st. unfold bind. destruct (Hm st) as [Hst He].
  destruct (m st) as [[a | e] st']; cbn in *; subst.
  - apply Hk.
  - split; [reflexivity |]. intros e' H. injection H as <-. auto.
Qed.

Ltac quiet_cases :=
  intros st; split; [reflexivity | cbn; intros e H; try discriminate H;
                                   injection H as <-; reflexivity].

Lemma quiet_getattr (name : string) : quiet (getattr name).
Proof.
  intros st. unfold getattr. destruct (dict_lookup _ _); revert st; quiet_cases.
Qed.

Lemma quiet_py_get (v : value) (k : string) (d : value) : quiet (py_get v k d).
Proof. destruct v; quiet_cases. Qed.

Lemma quiet_py_getitem (v : value) (k : string) : quiet (py_getitem v k).
Proof.
  destruct v; try quiet_cases.
  cbn. destruct (dict_lookup d k); quiet_cases.
Qed.

Lemma quiet_py_setitem (v : value) (k : string) (x : value) :
  quiet (py_setitem v k x).
Proof. destruct v; quiet_cases. Qed.

Lemma quiet_py_iter (v : value) : quiet (py_iter v).
Proof. destruct v; quiet_cases. Qed.

Lemma quiet_py_strip (v : value) : quiet (py_strip v).
Proof. destruct v; quiet_cases. Qed.

Lemma quiet_py_join (sep : string) (v : value) : quiet (py_join sep v).
Proof.
  unfold py_join. apply quiet_bind; [apply quiet_py_iter |].
  intros l. destruct (all_strs l); quiet_cases.
Qed.

#[local] Hint Resolve quiet_ret quiet_bind quiet_getattr
  quiet_py_get quiet_py_getitem quiet_py_setitem quiet_py_iter
  quiet_py_strip quiet_py_join : quiet.
#[local] Hint Extern 1 (quiet (raise _)) =>
  apply quiet_raise; reflexivity : quiet.

(** ** Answers along a trace *)

Section Traces.

Variable net : network.

Lemma all_ok_app (wire rs1 rs2 : list request) :
  all_ok net wire rs1 -> all_ok net (wire ++ rs1) rs2 ->
  all_ok net wire (rs1 ++ rs2).
Proof.
  revert wire. induction rs1 as [| r rs1 IH]; cbn; intros wire H1 H2.
  - rewrite app_nil_r in H2. assumption.
  - destruct H1 as [Hr H1]. split; [assumption |].
    apply IH; [assumption |].
    rewrite <- app_assoc. assumption.
Qed.

Lemma all_ok_at (wire pre post : list request) (r : request) :
  all_ok net wire (pre ++ r :: post) ->
  exists d, verdict net (wire ++ pre) r = Ok d.
Proof.
  revert wire. induction pre as [| x pre IH]; cbn; intros wire H.
  - rewrite app_nil_r. tauto.
  - destruct H as [_ H]. apply IH in H.
    rewrite <- app_assoc in H. assumption.
Qed.

Lemma stopped_app (wire rs1 rs2 : list request) (e : exn) :
  all_ok net wire rs1 -> stopped net (wire ++ rs1) rs2 e ->
  stopped net wire (rs1 ++ rs2) e.
Proof.
  intros H1 [[H2 He] | (pre & r & -> & Hpre & Hr)].
  - left. split; [apply all_ok_app |]; assumption.
  - right. exists (rs1 ++ pre), r. repeat split.
    + apply app_assoc.
    + apply all_ok_app; assumption.
    + rewrite app_assoc. assumption.
Qed.

(** A request whose answer drew an exception is the last of its run, and
    the run ended in that exception. *)
Lemma stopped_at (wire pre post : list request) (r : request) (e e' : exn) :
  stopped net wire (pre ++ r :: post) e ->
  verdict net (wire ++ pre) r = Raise e' ->
  post = [] /\ e = e'.
Proof.
  intros [[Hall _] | (pre' & r' & Heq & Hpre & Hr)] Hv.
  - apply all_ok_at in Hall. destruct Hall as [d Hd]. congruence.
  - destruct post as [| y post'] using rev_ind.
    + apply app_inj_tail in Heq. destruct Heq as [-> ->].
      split; congruence.
    + clear IHpost'.
      change (pre ++ r :: post' ++ [y]) with (pre ++ (r :: post') ++ [y]) in Heq.
      rewrite app_assoc in Heq.
      apply app_inj_tail in Heq. destruct Heq as [<- _].
      apply all_ok_at in Hpre. destruct Hpre as [d Hd]. congruence.
Qed.

(** *** Building run summaries *)

Lemma runs_quiet {A} (ps : list string) (m : M A) :
  quiet m -> runs net false ps m.
Proof.
  intros Hm st. destruct (Hm st) as [Hst He].
  exists []. rewrite Hst, app_nil_r.
  repeat split.
  - destruct st; reflexivity.
  - constructor.
  - apply sublist_nil_l.
  - destruct (fst (m st)); [exact I | left; split; [exact I | auto]].
  - discriminate.
Qed.

Lemma runs_bind {A B} (b1 b2 : bool) (ps1 ps2 : list string)
    (m : M A) (k : A -> M B) :
  runs net b1 ps1 m -> (forall a, runs net b2 ps2 (k a)) ->
  runs net b1 (ps1 ++ ps2) (bind m k).
Proof.
  intros Hm Hk st. unfold bind.
  destruct (Hm st) as (rs1 & Hst & Hto & Hps & Hres & Hmust).
  destruct (m st) as [[a | e] st1]; cbn in *; subst st1.
  - destruct (Hk a (mkState (self st) (sent st ++ rs1)))
      as (rs2 & Hst2 & Hto2 & Hps2 & Hres2 & _).
    cbn in *. exists (rs1 ++ rs2). repeat split.
    + rewrite Hst2, app_assoc. reflexivity.
    + apply Forall_app. split; assumption.
    + rewrite map_app. apply sublist_app; assumption.
    + destruct (fst (k a _)).
      * apply all_ok_app; assumption.
      * apply stopped_app; assumption.
    + intros Hb h p Hhp Hnil. apply app_eq_nil in Hnil.
      destruct Hnil as [-> _]. eapply Hmust; eauto.
  - exists rs1. repeat split; auto.
    apply sublist_app_l. assumption.
Qed.

Lemma runs_then {A B} (b : bool) (ps : list string) (m : M A) (k : A -> M B) :
  runs net b ps m -> (forall a, quiet (k a)) ->
  runs net b ps (bind m k).
Proof.
  intros Hm Hk. rewrite <- (app_nil_r ps).
  apply (runs_bind b false); [assumption |].
  intros a. apply runs_quiet. apply Hk.
Qed.

Lemma runs_round_trip (verb path : string) (timeout : Z) (body : option dict)
    (headers : list (string * string)) :
  runs net true [path] (round_trip net verb path timeout body headers).
Proof.
  intros st. unfold round_trip, bind, getattr, exchange.
  destruct (dict_lookup (self st) "host") as [h |] eqn:Hh.
  2:{ exists []. cbn. rewrite app_nil_r. repeat split.
      - destruct st; reflexivity.
      - constructor.
      - apply sublist_nil_l.
      - left; split; [exact I | reflexivity].
      - intros _ h p [Hh' _]. congruence. }
  destruct (dict_lookup (self st) "port") as [p |] eqn:Hp.
  2:{ exists []. cbn. rewrite app_nil_r. repeat split.
      - destruct st; reflexivity.
      - constructor.
      - apply sublist_nil_l.
      - left; split; [exact I | reflexivity].
      - intros _ h' p' [_ Hp']. congruence. }
  cbn [c_host c_port c_timeout].
  set (r := mkRequest verb h p timeout path body headers).
  exists [r].
  assert (Hto : Forall (fun r0 => Some h = Some (rq_host r0) /\
                                  Some p = Some (rq_port r0)) [r])
    by (constructor; [split; reflexivity | constructor]).
  assert (Hps : sublist (map rq_path [r]) [path]) by apply sublist_refl.
  assert (Hne : true = true -> forall h0 p0, bound st h0 p0 -> [r] <> [])
    by discriminate.
  assert (Hraise : forall e, verdict net (sent st) r = Raise e ->
                             stopped net (sent st) [r] e).
  { intros e He. right. exists [], r. cbn. rewrite app_nil_r. auto. }
  assert (Hok : forall d, verdict net (sent st) r = Ok d ->
                          all_ok net (sent st) [r]).
  { intros d Hd. cbn. eauto. }
  unfold verdict in Hraise, Hok. cbn [rq_verb rq_path r] in Hraise, Hok.
  destruct (net (sent st) r) as [e | status [[] |]]; cbn in *;
    try (repeat split; auto; fail).
  destruct (negb _ && _); cbn; repeat split; eauto.
  apply (Hok _ eq_refl).
Qed.

Lemma runs_ext {A} (b : bool) (ps : list string) (m m' : M A) :
  (forall st, m st = m' st) -> runs net b ps m' -> runs net b ps m.
Proof. intros E H st. rewrite E. apply H. Qed.

Lemma runs_may {A} (ps : list string) (m : M A) :
  runs net true ps m -> runs net false ps m.
Proof.
  intros H st. destruct (H st) as (rs & H1 & H2 & H3 & H4 & _).
  exists rs. repeat split; auto. discriminate.
Qed.

Lemma _get_round_trip (path : string) (st : state) :
  _get net path st =
  round_trip net "GET" path (DEFAULT_TIMEOUT + 10) None [] st.
Proof.
  unfold _get, _conn, round_trip, bind, getattr, ret.
  destruct (dict_lookup (self st) "host"); [| reflexivity].
  destruct (dict_lookup (self st) "port"); reflexivity.
Qed.

Lemma _post_round_trip (path : string) (body : dict) (timeout : Z) :
  _post net path body timeout =
  round_trip net "POST" path (timeout + 10) (Some body) json_headers.
Proof. reflexivity. Qed.

Lemma runs_get (path : string) : runs net true [path] (_get net path).
Proof.
  eapply runs_ext; [apply _get_round_trip | apply runs_round_trip].
Qed.

Lemma runs_post (path : string) (body : dict) (timeout : Z) :
  runs net true [path] (_post net path body timeout).
Proof. rewrite _post_round_trip. apply runs_round_trip. Qed.

Lemma runs_run_and_capture (command cwd : string) (timeout : Z) :
  runs net true ["/run-terminal"] (run_and_capture net command cwd timeout).
Proof.
  unfold run_and_capture, run_terminal.
  apply runs_then; [apply runs_post | auto with quiet].
Qed.

Lemma runs_slack_post (text channel : string) :
  runs net true ["/slack-post"] (slack_post net text channel).
Proof.
  unfold slack_post. apply runs_then; [apply runs_post | auto with quiet].
Qed.

Lemma runs_run_first_loop (files : list value) :
  runs net false ["/run-terminal"] (run_first_loop net files).
Proof.
  induction files as [| f rest IH]; cbn.
  - apply runs_quiet. auto with quiet.
  - destruct f; try (apply runs_quiet; auto with quiet; fail).
    destruct (endswith s ".py"); [apply runs_may, runs_run_and_capture |].
    destruct (endswith s ".js"); [apply runs_may, runs_run_and_capture |].
    assumption.
Qed.

Lemma runs_ask_then_run (task : string) (run_result slack_report : bool) :
  runs net true (pipeline_paths run_result slack_report)
    (ask_then_run net task run_result slack_report).
Proof.
  unfold ask_then_run, copilot_task, pipeline_paths.
  apply (runs_bind true false); [apply runs_post |].
  intros result. apply (runs_bind false false).
  - destruct run_result; [| apply runs_quiet; auto with quiet].
    apply (runs_bind false false [] ["/run-terminal"]);
      [apply runs_quiet; auto with quiet |].
    intros changed. destruct (truthy changed);
      [| apply runs_quiet; auto with quiet].
    apply (runs_bind false false [] ["/run-terminal"]);
      [apply runs_quiet; auto with quiet |].
    intros fs.
    apply (runs_bind false false [] ["/run-terminal"]);
      [apply runs_quiet; auto with quiet |].
    intros files. apply runs_run_first_loop.
  - intros output. apply runs_then; [| auto with quiet].
    destruct slack_report; [| apply runs_quiet; auto with quiet].
    apply (runs_bind false false [] ["/slack-post"]);
      [apply runs_quiet; auto with quiet |].
    intros changed.
    apply (runs_bind false false [] ["/slack-post"]);
      [apply runs_quiet; auto with quiet |].
    intros joined. apply runs_then; [| auto with quiet].
    apply runs_may, runs_slack_post.
Qed.

(** Every method but the pipeline is one round trip and a quiet
    unwrapping. *)
Lemma runs_single (c : call) :
  is_pipeline c = false -> exists path, runs net true [path] (invoke net c).
Proof.
  destruct c; cbn [is_pipeline invoke]; intros Hc; try discriminate;
    eexists;
    unfold health, workspace_info, log, prompt, copilot_task, read_file,
      write_file, apply_edit, list_dir, run_terminal, open_file,
      diagnostics, exec_command, show_message, keep_going, auto_dismiss,
      auto_dismiss_status, watch_start, watch_result, changes_since,
      pending_approvals, accept_edits, reject_edits, slack_post,
      desktop_type;
    first [ apply runs_get
          | apply runs_post
          | apply runs_then;
            [first [apply runs_get | apply runs_post
                   | apply runs_run_and_capture]
            | auto with quiet] ].
Qed.

Lemma runs_invoke (c : call) :
  exists paths,
    runs net true paths (invoke net c) /\
    NoDup paths /\
    (List.length paths <= 3)%nat /\
    (is_pipeline c = false -> List.length paths = 1%nat).
Proof.
  destruct (is_pipeline c) eqn:Hc.
  - destruct c; try discriminate.
    exists (pipeline_paths run_result slack_report).
    repeat split; [apply runs_ask_then_run | | | discriminate];
      destruct run_result, slack_report; cbn; try lia;
      repeat constructor; cbn; intuition discriminate.
  - destruct (runs_single c Hc) as [path Hp].
    exists [path]. repeat split; [assumption | | cbn; lia].
    repeat constructor. intros [].
Qed.

End Traces.

(** ** Two runs side by side *)

Section SideBySide.

Variables net1 net2 : network.

Lemma related_ret {A} (a : A) : related net1 net2 (ret a) (ret a).
Proof. intros st1 st2 H. split; [reflexivity | exact H]. Qed.

Lemma related_raise {A} (e : exn) : related net1 net2 (@raise A e) (raise e).
Proof. intros st1 st2 H. split; [reflexivity | exact H]. Qed.

Lemma related_bind {A B} (m1 m2 : M A) (k1 k2 : A -> M B) :
  related net1 net2 m1 m2 ->
  (forall a, related net1 net2 (k1 a) (k2 a)) ->
  related net1 net2 (bind m1 k1) (bind m2 k2).
Proof.
  intros Hm Hk st1 st2 H. unfold bind.
  destruct (Hm st1 st2 H) as [Hres Hst].
  destruct (m1 st1) as [[a1 | e1] s1], (m2 st2) as [[a2 | e2] s2];
    cbn in *; try congruence.
  - injection Hres as <-. apply Hk. assumption.
  - injection Hres as <-. split; [reflexivity | assumption].


Qed.

Lemma related_host : related net1 net2 (getattr "host") (getattr "host").
Proof.
  intros st1 st2 H. unfold getattr. pose proof H as (Hh & Hp & Hn).
  rewrite Hh. destruct (dict_lookup (self st2) "host"); split; auto.
Qed.

Lemma related_port : related net1 net2 (getattr "port") (getattr "port").
Proof.
  intros st1 st2 H. unfold getattr. pose proof H as (Hh & Hp & Hn).
  rewrite Hp. destruct (dict_lookup (self st2) "port"); split; auto.
Qed.

Lemma agree_push (st1 st2 : state) (r : request) :
  agree net1 net2 st1 st2 -> agree net1 net2 (push st1 r) (push st2 r).
Proof.
  intros (Hh & Hp & Hn). repeat split; auto.
  intros wire r'. cbn. rewrite <- !app_assoc. apply Hn.
Qed.

Lemma related_exchange (c : connection) (verb path : string)
    (body : option dict) (headers : list (string * string)) :
  related net1 net2 (exchange net1 c verb path body headers)
      (exchange net2 c verb path body headers).
Proof.
  intros st1 st2 H. unfold exchange.
  set (r := mkRequest _ _ _ _ _ _ _).
  assert (E : net1 (sent st1) r = net2 (sent st2) r).
  { destruct H as (_ & _ & Hn). specialize (Hn [] r).
    rewrite !app_nil_r in Hn. exact Hn. }
  rewrite E. apply (agree_push _ _ r) in H.
  destruct (net2 (sent st2) r) as [e | status [v |]]; split; auto.
Qed.

Lemma related_py_get (v : value) (k : string) (d : value) :
  related net1 net2 (py_get v k d) (py_get v k d).
Proof. destruct v; first [apply related_ret | apply related_raise]. Qed.

Lemma related_py_getitem (v : value) (k : string) :
  related net1 net2 (py_getitem v k) (py_getitem v k).
Proof.
  destruct v; try apply related_raise.
  cbn. destruct (dict_lookup d k); [apply related_ret | apply related_raise].
Qed.

Lemma related_py_setitem (v : value) (k : string) (x : value) :
  related net1 net2 (py_setitem v k x) (py_setitem v k x).
Proof. destruct v; first [apply related_ret | apply related_raise]. Qed.

Lemma related_py_iter (v : value) : related net1 net2 (py_iter v) (py_iter v).
Proof. destruct v; first [apply related_ret | apply related_raise]. Qed.

Lemma related_py_strip (v : value) : related net1 net2 (py_strip v) (py_strip v).
Proof. destruct v; first [apply related_ret | apply related_raise]. Qed.

Lemma related_py_join (sep : string) (v : value) :
  related net1 net2 (py_join sep v) (py_join sep v).
Proof.
  unfold py_join. apply related_bind; [apply related_py_iter |].
  intros l. destruct (all_strs l); [apply related_ret | apply related_raise].
Qed.

Ltac side_by_side :=
  repeat first
    [ apply related_ret | apply related_raise
    | apply related_host | apply related_port | apply related_exchange
    | apply related_py_get | apply related_py_getitem
    | apply related_py_setitem | apply related_py_iter
    | apply related_py_strip | apply related_py_join
    | apply related_bind; [| intros ?]
    | match goal with
      | |- related _ _ (if ?c then _ else _) _ => destruct c
      end ].

Lemma related_get (path : string) : related net1 net2 (_get net1 path) (_get net2 path).
Proof. unfold _get, _conn. side_by_side. Qed.

Lemma related_post (path : string) (body : dict) (timeout : Z) :
  related net1 net2 (_post net1 path body timeout) (_post net2 path body timeout).
Proof. unfold _post. side_by_side. Qed.

Lemma related_run_and_capture (command cwd : string) (timeout : Z) :
  related net1 net2 (run_and_capture net1 command cwd timeout)
      (run_and_capture net2 command cwd timeout).
Proof.
  unfold run_and_capture, run_terminal.
  apply related_bind; [apply related_post | intros ?]. side_by_side.
Qed.

Lemma related_run_first_loop (files : list value) :
  related net1 net2 (run_first_loop net1 files) (run_first_loop net2 files).
Proof.
  induction files as [| f rest IH]; cbn; [apply related_ret |].
  destruct f; try apply related_raise.
  destruct (endswith s ".py"); [apply related_run_and_capture |].
  destruct (endswith s ".js"); [apply related_run_and_capture |].
  assumption.
Qed.

Lemma related_invoke (c : call) : related net1 net2 (invoke net1 c) (invoke net2 c).
Proof.
  destruct c; cbn [invoke];
    unfold health, workspace_info, log, prompt, copilot_task, read_file,
      write_file, apply_edit, list_dir, run_terminal, open_file,
      diagnostics, exec_command, show_message, keep_going, auto_dismiss,
      auto_dismiss_status, watch_start, watch_result, changes_since,
      pending_approvals, accept_edits, reject_edits, slack_post,
      desktop_type, ask_then_run, copilot_task;
    repeat first
      [ apply related_get | apply related_post
      | apply related_run_and_capture | apply related_run_first_loop
      | progress side_by_side ].
Qed.

End SideBySide.

(** A call raises [BridgeError] exactly when one of its requests drew a
    failure response. *)
Lemma invoke_BridgeError_iff (net : network) (c : call) (st : state) :
  (exists m, fst (invoke net c st) = Raise (BridgeError m)) <->
  (exists pre r post,
     sent (snd (invoke net c st)) = sent st ++ pre ++ r :: post /\
     failure_response (net (sent st ++ pre) r) = true).
Proof.
  destruct (runs_invoke net c) as (paths & Hruns & _).
  destruct (Hruns st) as (rs & Hst & _ & _ & Hres & _).
  split.
  - intros [m Hm]. rewrite Hm in Hres.
    destruct Hres as [[_ He] | (pre & r & -> & _ & Hr)]; [discriminate |].
    exists pre, r, []. split; [rewrite Hst; reflexivity |].
    apply checked_BridgeError in Hr. exact Hr.
  - intros (pre & r & post & Hsent & Hfail).
    rewrite Hst in Hsent. cbn in Hsent. apply app_inv_head in Hsent. subst rs.
    apply (checked_failure_response (rq_verb r) (rq_path r)) in Hfail.
    destruct Hfail as [m Hm]. fold (verdict net (sent st ++ pre) r) in Hm.
    destruct (fst (invoke net c st)) as [v | e].
    + apply all_ok_at in Hres. destruct Hres as [d Hd]. congruence.
    + destruct (stopped_at net _ _ _ _ _ _ Hres Hm) as [_ ->]. eauto.
Qed.

(** ** The error rule of [_get] and [_post] *)

(** C5. [_get] and [_post] raise [BridgeError] exactly when the answer is
    a JSON object whose ["ok"] is falsy and the status is at least 400,
    and hence a public method raises it exactly when one of its requests
    is answered so.  In particular an answer with a truthy ["ok"] is
    handed back whatever the status, and so is an answer under a status
    below 400 whatever its ["ok"]. *)
Theorem BridgeError_iff_falsy_ok_and_status (net : network) (path : string)
    (body : dict) (timeout : Z) (st : state) (h p : value) :
  bound st h p ->
  let got := net (sent st) (get_request h p path) in
  let posted := net (sent st) (post_request h p path body timeout) in
  ((exists m, fst (_get net path st) = Raise (BridgeError m)) <->
   (exists status d, got = Responds status (Some (VDict d)) /\
      truthy (dict_get d "ok" VNone) = false /\ 400 <= status)) /\
  ((exists m, fst (_post net path body timeout st) = Raise (BridgeError m)) <->
   (exists status d, posted = Responds status (Some (VDict d)) /\
      truthy (dict_get d "ok" VNone) = false /\ 400 <= status)) /\
  (forall status d, got = Responds status (Some (VDict d)) ->
     truthy (dict_get d "ok" VNone) = true \/ status < 400 ->
     fst (_get net path st) = Ok (VDict d)) /\
  (forall status d, posted = Responds status (Some (VDict d)) ->
     truthy (dict_get d "ok" VNone) = true \/ status < 400 ->
     fst (_post net path body timeout st) = Ok (VDict d)) /\
  (forall c,
     (exists m, fst (invoke net c st) = Raise (BridgeError m)) <->
     (exists pre r post status d,
        sent (snd (invoke net c st)) = sent st ++ pre ++ r :: post /\
        net (sent st ++ pre) r = Responds status (Some (VDict d)) /\
        truthy (dict_get d "ok" VNone) = false /\ 400 <= status)).
Proof.
  intros Hb got posted.
  assert (Hfr : forall o,
            failure_response o = true <->
            exists status d, o = Responds status (Some (VDict d)) /\
              truthy (dict_get d "ok" VNone) = false /\ 400 <= status).
  { intros o. split.
    - destruct o as [e | status [[] |]]; try discriminate.
      cbn. intros H. apply andb_prop in H. destruct H as [Hok Hs].
      exists status, d. repeat split.
      + apply negb_true_iff. assumption.
      + apply Z.leb_le. assumption.
    - intros (status & d & -> & Hok & Hs). cbn.
      rewrite Hok. apply Z.leb_le in Hs. rewrite Hs. reflexivity. }
  assert (Hpublic : forall c,
     (exists m, fst (invoke net c st) = Raise (BridgeError m)) <->
     (exists pre r post status d,
        sent (snd (invoke net c st)) = sent st ++ pre ++ r :: post /\
        net (sent st ++ pre) r = Responds status (Some (VDict d)) /\
        truthy (dict_get d "ok" VNone) = false /\ 400 <= status)).
  { intros c. rewrite invoke_BridgeError_iff. split.
    - intros (pre & r & post & Hs & Hf). apply Hfr in Hf.
      destruct Hf as (status & d & Ho & Hok & H4).
      exists pre, r, post, status, d. auto.
    - intros (pre & r & post & status & d & Hs & Ho & Hok & H4).
      exists pre, r, post. split; [exact Hs |]. apply Hfr. eauto. }
  rewrite (_get_eq net path st h p Hb), (_post_eq net path body timeout st h p Hb).
  fold got posted. cbn [fst].
  assert (Hiff : forall verb o,
            (exists m, checked verb path o = Raise (BridgeError m)) <->
            (exists status d, o = Responds status (Some (VDict d)) /\
               truthy (dict_get d "ok" VNone) = false /\ 400 <= status)).
  { intros verb o. split.
    - intros [m Hm]. apply checked_BridgeError in Hm.
      destruct o as [e | status [[] |]]; try discriminate.
      cbn in Hm. apply andb_prop in Hm. destruct Hm as [Hok Hs].
      exists status, d. repeat split.
      + apply negb_true_iff. assumption.
      + apply Z.leb_le. assumption.
    - intros (status & d & -> & Hok & Hs). cbn.
      rewrite Hok. apply Z.leb_le in Hs. rewrite Hs. cbn. eauto. }
  assert (Hback : forall verb o status d,
            o = Responds status (Some (VDict d)) ->
            truthy (dict_get d "ok" VNone) = true \/ status < 400 ->
            checked verb path o = Ok (VDict d)).
  { intros verb o status d -> [Hok | Hs]; cbn.
    - rewrite Hok. reflexivity.
    - apply Z.leb_gt in Hs. rewrite Hs, andb_false_r. reflexivity. }
  split; [apply Hiff |]. split; [apply Hiff |].
  split; [intros; eapply Hback; eauto |].
  split; [intros; eapply Hback; eauto | exact Hpublic].
Qed.

Lemma BridgeError_iff_witness :
  fst (_get (script_net [Responds 500 (Some json_ok)]) "/health" fresh)
  = Ok json_ok.
Proof.
  refine (proj1 (proj2 (proj2
    (BridgeError_iff_falsy_ok_and_status
       (script_net [Responds 500 (Some json_ok)]) "/health" [] 0 fresh
       (VStr BRIDGE_HOST) (VInt 3131) _))) 500 _ _ _).
  - split; reflexivity.
  - reflexivity.
  - left. reflexivity.
Defined.

(** ** Unwrapping with defaults *)

Ltac unfold_methods :=
  unfold health, workspace_info, log, prompt, copilot_task, read_file,
    write_file, apply_edit, list_dir, run_and_capture, run_terminal,
    open_file, diagnostics, exec_command, show_message, keep_going,
    auto_dismiss, auto_dismiss_status, watch_start, watch_result,
    changes_since, pending_approvals, accept_edits, reject_edits,
    slack_post, desktop_type.

Lemma checked_back (verb path : string) (status : Z) (d : dict) :
  failure_response (Responds status (Some (VDict d))) = false ->
  checked verb path (Responds status (Some (VDict d))) = Ok (VDict d).
Proof. cbn. intros ->. reflexivity. Qed.

(** C8, as amended.  Each unwrapping method sends one request; when the
    answer to it is a JSON object that is not a failure response (so
    [_get]/[_post] hand it back) and the expected key is missing from it,
    the method returns its default. *)
Theorem unwrap_default_when_key_missing (net : network) (c : call)
    (key : string) (default : value) (st : state) (h p : value) :
  unwraps c = Some (key, default) ->
  bound st h p ->
  exists r,
    sent (snd (invoke net c st)) = sent st ++ [r] /\
    forall status d,
      net (sent st) r = Responds status (Some (VDict d)) ->
      failure_response (net (sent st) r) = false ->
      dict_lookup d key = None ->
      fst (invoke net c st) = Ok default.
Proof.
  intros Hu Hb.
  destruct c; cbn in Hu; try discriminate; injection Hu as <- <-;
    cbn [invoke]; unfold_methods; unfold bind;
    first [ rewrite (_get_eq net _ st h p Hb)
          | rewrite (_post_eq net _ _ _ st h p Hb) ];
    (eexists; split;
     [ match goal with
       | |- context [checked ?v ?q ?o] => destruct (checked v q o)
       end; try reflexivity;
       match goal with
       | |- context [py_get ?a ?k ?d] => destruct a
       end; try reflexivity;
       cbn; match goal with
            | |- context [py_strip ?a] => destruct a
            end; reflexivity
     | intros status d Hnet Hfail Hkey; rewrite Hnet in *;
       rewrite (checked_back _ _ _ _ Hfail); cbn;
       unfold dict_get; rewrite Hkey; reflexivity ]).
Qed.

Lemma unwrap_default_witness :
  fst (invoke (script_net [Responds 200 (Some (VDict []))])
         (ApplyEdit "a.txt" "x" "y") fresh) = Ok (VBool false).
Proof.
  destruct (unwrap_default_when_key_missing
              (script_net [Responds 200 (Some (VDict []))])
              (ApplyEdit "a.txt" "x" "y") "ok" (VBool false) fresh
              (VStr BRIDGE_HOST) (VInt 3131) eq_refl (conj eq_refl eq_refl))
    as (r & Hr & H).
  apply (H 200 []).
  - cbn in Hr. injection Hr as <-. reflexivity.
  - cbn in Hr. injection Hr as <-. reflexivity.
  - reflexivity.
Defined.

(** C8 as first worded fails: with ["ok"] missing from the answer,
    [apply_edit] raises under a status of 400 or more. *)
Lemma unwrap_default_counterexample :
  ~ (forall (net : network) (st : state) (h p : value) (status : Z) (d : dict),
       bound st h p ->
       net (sent st)
         (post_request h p "/apply-edit"
            [("path", VStr "a.txt"); ("old_text", VStr "x");
             ("new_text", VStr "y")] DEFAULT_TIMEOUT)
       = Responds status (Some (VDict d)) ->
       dict_lookup d "ok" = None ->
       fst (apply_edit net "a.txt" "x" "y" st) = Ok (VBool false)).
Proof.
  intros H.
  specialize (H (script_net [Responds 500 (Some (VDict []))]) fresh
                (VStr BRIDGE_HOST) (VInt 3131) 500 []
                (conj eq_refl eq_refl) eq_refl eq_refl).
  vm_compute in H. discriminate H.
Qed.

(** ** Port discovery *)

Section Discovery.

Variable net : network.
Variable host : string.

Lemma discover_loop_scan (ports : list Z) (st : state) :
  dict_lookup (self st) "host" = Some (VStr host) ->
  discover_loop net ports st =
    (match fst (scan net host (sent st) ports) with
     | Some p => Ok p
     | None => Raise (BridgeError (NoBridgeFound BRIDGE_PORTS))
     end,
     mkState (self st) (snd (scan net host (sent st) ports))).
Proof.
  revert st. induction ports as [| p rest IH]; intros st Hh.
  - destruct st; reflexivity.
  - cbn [discover_loop scan].
    unfold bind at 1. unfold try_except, _raw_get, bind, getattr, exchange.
    rewrite Hh. cbn [c_host c_port c_timeout]. fold (probe host p).
    destruct (net (sent st) (probe host p)) as [e | status [[] |]];
      cbn -[scan discover_loop]; try (rewrite IH; [reflexivity | exact Hh]).
    destruct (truthy (dict_get d "ok" VNone));
      cbn -[scan discover_loop]; [reflexivity |].
    rewrite IH; [reflexivity | exact Hh].
Qed.

Lemma AgentBridge_scan (wire : list request) :
  AgentBridge net host None wire =
    match scan net host wire BRIDGE_PORTS with
    | (Some p, wire') => (Ok (instance host p), wire')
    | (None, wire') => (Raise (BridgeError (NoBridgeFound BRIDGE_PORTS)), wire')
    end.
Proof.
  unfold AgentBridge, __init__, _discover_port.
  unfold bind at 1. cbn [setattr self sent dict_set].
  unfold bind at 1. rewrite discover_loop_scan by reflexivity.
  cbn [self sent].
  destruct (scan net host wire BRIDGE_PORTS) as [[p |] wire']; reflexivity.
Qed.

Lemma AgentBridge_zero (wire : list request) :
  AgentBridge net host (Some 0) wire = AgentBridge net host None wire.
Proof. reflexivity. Qed.

Lemma AgentBridge_port (p : Z) (wire : list request) :
  p <> 0 -> AgentBridge net host (Some p) wire = (Ok (instance host p), wire).
Proof.
  intros Hp. unfold AgentBridge, __init__, bind. cbn.
  apply Z.eqb_neq in Hp. rewrite Hp. reflexivity.
Qed.

(** The answer to the [n]-th probe of the scan over [ports]. *)
Lemma scan_found (ports : list Z) (wire : list request) (k : nat) :
  (k < List.length ports)%nat ->
  (forall j, (j < k)%nat ->
     qualifies (net (wire ++ map (probe host) (firstn j ports))
                    (probe host (nth j ports 0))) = false) ->
  qualifies (net (wire ++ map (probe host) (firstn k ports))
                 (probe host (nth k ports 0))) = true ->
  scan net host wire ports =
    (Some (nth k ports 0), wire ++ map (probe host) (firstn (S k) ports)).
Proof.
  revert wire k. induction ports as [| p rest IH]; intros wire k Hk Hbefore Hat.
  - cbn in Hk. lia.
  - destruct k as [| k].
    + cbn in Hat. rewrite app_nil_r in Hat. cbn. rewrite Hat. reflexivity.
    + pose proof (Hbefore 0%nat ltac:(lia)) as H0.
      cbn in H0. rewrite app_nil_r in H0.
      cbn [scan]. rewrite H0.
      rewrite (IH (wire ++ [probe host p]) k).
      * cbn. rewrite <- app_assoc. reflexivity.
      * cbn in Hk. lia.
      * intros j Hj. specialize (Hbefore (S j) ltac:(lia)).
        cbn in Hbefore. rewrite <- app_assoc. exact Hbefore.
      * cbn in Hat. rewrite <- app_assoc. exact Hat.
Qed.

Lemma scan_none (ports : list Z) (wire : list request) :
  (forall j, (j < List.length ports)%nat ->
     qualifies (net (wire ++ map (probe host) (firstn j ports))
                    (probe host (nth j ports 0))) = false) ->
  scan net host wire ports = (None, wire ++ map (probe host) ports).
Proof.
  revert wire. induction ports as [| p rest IH]; intros wire Hall.
  - cbn. rewrite app_nil_r. reflexivity.
  - pose proof (Hall 0%nat ltac:(cbn; lia)) as H0.
    cbn in H0. rewrite app_nil_r in H0.
    cbn [scan]. rewrite H0. rewrite IH.
    + cbn. rewrite <- app_assoc. reflexivity.
    + intros j Hj. specialize (Hall (S j) ltac:(cbn; lia)).
      cbn in Hall. rewrite <- app_assoc. exact Hall.
Qed.

Lemma scan_prefix (ports : list Z) (wire : list request) :
  exists k, (k <= List.length ports)%nat /\
    snd (scan net host wire ports) = wire ++ map (probe host) (firstn k ports).
Proof.
  revert wire. induction ports as [| p rest IH]; intros wire.
  - exists 0%nat. cbn. rewrite app_nil_r. auto.
  - cbn [scan]. destruct (qualifies _).
    + exists 1%nat. cbn. split; [lia | reflexivity].
    + destruct (IH (wire ++ [probe host p])) as (k & Hk & E).
      exists (S k). cbn. rewrite E, <- app_assoc. split; [lia | reflexivity].
Qed.

End Discovery.

(** C2. Built without a port, the client probes 3131, 3132, 3133, 3134
    in that order with [GET /health]; it takes the first port whose
    answer is a JSON object with a truthy ["ok"], having skipped the ports
    before it, and raises [BridgeError] when none of the four qualifies.
    [answer n] is what comes back for the probe of the [n]-th port, sent
    after the probes of the ports before it. *)
Theorem discover_first_live_port (net : network) (host : string)
    (wire : list request) :
  let probes n := map (probe host) (firstn n BRIDGE_PORTS) in
  let answer n := net (wire ++ probes n) (probe host (nth n BRIDGE_PORTS 0)) in
  BRIDGE_PORTS = [3131; 3132; 3133; 3134] /\
  (forall k, (k < 4)%nat ->
     (forall j, (j < k)%nat -> qualifies (answer j) = false) ->
     qualifies (answer k) = true ->
     AgentBridge net host None wire =
       (Ok (instance host (nth k BRIDGE_PORTS 0)), wire ++ probes (S k))) /\
  ((forall j, (j < 4)%nat -> qualifies (answer j) = false) ->
   AgentBridge net host None wire =
     (Raise (BridgeError (NoBridgeFound BRIDGE_PORTS)), wire ++ probes 4%nat)).
Proof.
  intros probes answer. split; [reflexivity |]. split.
  - intros k Hk Hbefore Hat. rewrite AgentBridge_scan.
    rewrite (scan_found net host BRIDGE_PORTS wire k Hk Hbefore Hat).
    reflexivity.
  - intros Hall. rewrite AgentBridge_scan.
    rewrite (scan_none net host BRIDGE_PORTS wire Hall). reflexivity.
Qed.

Lemma discover_first_live_port_witness :
  AgentBridge
    (script_net [Fails ConnectionRefusedError; Responds 200 (Some (VDict []));
                 Responds 200 (Some json_ok)])
    "127.0.0.1" None []
  = (Ok (instance "127.0.0.1" 3133),
     [probe "127.0.0.1" 3131; probe "127.0.0.1" 3132; probe "127.0.0.1" 3133]).
Proof.
  refine (proj1 (proj2 (discover_first_live_port _ "127.0.0.1" [])) 2%nat _ _ _).
  - lia.
  - intros [| [| j]] Hj; [reflexivity | reflexivity | lia].
  - reflexivity.
Defined.

(** ** Falsy arguments *)

(** C9. A falsy optional argument leaves no trace in the request:
    [prompt] with empty [model] and [system] and no [context_files] sends
    a body with just ["prompt"] and ["timeout"], and in general those two
    plus the truthy optionals; [open_file] with [line=0] sends a body
    without ["line"]; and [AgentBridge(port=0)] is [AgentBridge(port=None)]:
    the port [0] is never used. *)
Theorem falsy_same_as_omitted (net : network) (st : state) (h p : value)
    (q path host : string) (t : Z) (wire : list request) :
  bound st h p ->
  sent (snd (prompt net q EmptyString EmptyString t None st))
    = sent st ++ [post_request h p "/prompt"
                    [("prompt", VStr q); ("timeout", VInt t)] (t + 10)] /\
  (forall model system context_files,
     sent (snd (prompt net q model system t context_files st))
     = sent st ++ [post_request h p "/prompt"
                     (prompt_body q model system t context_files) (t + 10)]) /\
  sent (snd (open_file net path 0 st))
    = sent st ++ [post_request h p "/open-file" [("path", VStr path)]
                    DEFAULT_TIMEOUT] /\
  AgentBridge net host (Some 0) wire = AgentBridge net host None wire /\
  (forall d w, AgentBridge net host (Some 0) wire = (Ok d, w) ->
     dict_lookup d "port" <> Some (VInt 0)).
Proof.
  intros Hb.
  assert (Hsent : forall A path body timeout (k : value -> M A),
            (forall v, quiet (k v)) ->
            sent (snd (bind (_post net path body timeout) k st))
            = sent st ++ [post_request h p path body timeout]).
  { intros A path' body timeout k Hk. unfold bind.
    rewrite (_post_eq net _ _ _ st h p Hb).
    destruct (checked _ _ _); [rewrite (proj1 (Hk _ _)) |]; reflexivity. }
  repeat split.
  - unfold prompt. apply Hsent. auto with quiet.
  - intros model system cf. unfold prompt. rewrite Hsent by auto with quiet.
    do 3 f_equal.
    destruct model, system, cf as [[| f fs] |]; reflexivity.
  - unfold open_file. apply Hsent. auto with quiet.
  - intros d w E. rewrite AgentBridge_zero, AgentBridge_scan in E.
    destruct (scan_prefix net host BRIDGE_PORTS wire) as (k & Hk & _).
    assert (Hin : forall ports w0 x w1,
              scan net host w0 ports = (Some x, w1) -> In x ports).
    { induction ports as [| y rest IH]; cbn; intros w0 x w1 Hs;
        [discriminate |].
      destruct (qualifies _).
      - injection Hs as <- _. auto.
      - eauto. }
    destruct (scan net host wire BRIDGE_PORTS) as [[x |] w'] eqn:Es;
      [| discriminate].
    injection E as <- _. apply Hin in Es. cbn.
    intros Hx. injection Hx as ->.
    cbn in Es. intuition discriminate.
Qed.

Lemma falsy_same_as_omitted_witness :
  sent (snd (open_file (script_net []) "a.py" 0 fresh))
  = [post_request (VStr BRIDGE_HOST) (VInt 3131) "/open-file"
       [("path", VStr "a.py")] DEFAULT_TIMEOUT].
Proof.
  exact (proj1 (proj2 (proj2
    (falsy_same_as_omitted (script_net []) fresh (VStr BRIDGE_HOST)
       (VInt 3131) "hi" "a.py" "127.0.0.1" 300 []
       (conj eq_refl eq_refl))))).
Defined.

(** ** The pipeline *)

Section Pipeline.

Variable net : network.

Lemma bind_cong {A B} (m1 m2 : M A) (k1 k2 : A -> M B) (st : state) :
  m1 st = m2 st ->
  (forall a st', m2 st = (Ok a, st') -> k1 a st' = k2 a st') ->
  bind m1 k1 st = bind m2 k2 st.
Proof.
  intros Hm Hk. unfold bind. rewrite Hm.
  destruct (m2 st) as [[a | e] st']; [apply Hk |]; reflexivity.
Qed.





End Pipeline.

(** A run of the pipeline: the second changed file is the first runnable
    one, it alone is run, and Slack gets one message. *)
Example ask_then_run_example :
  fst (ask_then_run pipeline_net "do it" true true fresh)
  = Ok (VDict [("ok", VBool true);
               ("files_changed",
                VList [VStr "README.md"; VStr "x.js"; VStr "y.py"]);
               ("run_output", VStr "hi")]) /\
  map rq_path (sent (snd (ask_then_run pipeline_net "do it" true true fresh)))
  = ["/copilot-task"; "/run-terminal"; "/slack-post"] /\
  map (fun r => match rq_body r with
                | Some b => dict_lookup b "command"
                | None => None
                end)
      (sent (snd (ask_then_run pipeline_net "do it" true true fresh)))
  = [None; Some (VStr ("node " ++ dquote ++ "x.js" ++ dquote)%string); None].
Proof. vm_compute. repeat split; reflexivity. Qed.

(** ** Consequences of the run summaries *)

(** A transport failure, a body that is not JSON, or a failure response:
    each draws an exception from [_get]/[_post]. *)
Lemma verdict_Raise (net : network) (wire : list request) (r : request) :
  (exists e, net wire r = Fails e) \/
  (exists status, net wire r = Responds status None) \/
  failure_response (net wire r) = true ->
  exists e, verdict net wire r = Raise e.
Proof.
  unfold verdict. intros [[e ->] | [[status ->] | H]]; cbn; eauto.
  apply (checked_failure_response (rq_verb r) (rq_path r)) in H.
  destruct H as [m ->]. eauto.
Qed.




(** What the transport raises reaches the caller as it is. *)
Example health_connection_refused :
  fst (invoke (script_net [Fails ConnectionRefusedError]) Health fresh)
  = Raise (NetError ConnectionRefusedError) /\
  fst (invoke (script_net [Fails TimeoutError]) KeepGoing fresh)
  = Raise (NetError TimeoutError) /\
  fst (invoke (script_net [Responds 200 None]) Health fresh)
  = Raise JSONDecodeError.
Proof. repeat split; reflexivity. Qed.

(** ** Round trips per call *)

(** C4, as amended.  Every public method but [ask_then_run] performs
    exactly one round trip; [ask_then_run] performs at least one and at
    most three; all of them go to [self.host] and [self.port]. *)
Theorem round_trips_per_call (net : network) (c : call) (st : state)
    (h p : value) :
  bound st h p ->
  exists rs,
    sent (snd (invoke net c st)) = sent st ++ rs /\
    Forall (fun r => rq_host r = h /\ rq_port r = p) rs /\
    (1 <= List.length rs <= 3)%nat /\
    (is_pipeline c = false -> List.length rs = 1%nat).
Proof.
  intros Hb.
  destruct (runs_invoke net c) as (paths & Hruns & _ & H3 & H1).
  destruct (Hruns st) as (rs & Hst & Hto & Hps & _ & Hne).
  specialize (Hne eq_refl h p Hb).
  apply sublist_length in Hps. rewrite length_map in Hps.
  exists rs. repeat split.
  - rewrite Hst. reflexivity.
  - destruct Hb as [Hh Hp]. rewrite Hh, Hp in Hto.
    eapply Forall_impl; [| exact Hto].
    cbn. intros r [E1 E2]. split; congruence.
  - destruct rs; [congruence | cbn; lia].
  - lia.
  - intros Hc. specialize (H1 Hc).
    destruct rs; [congruence | cbn in *; lia].
Qed.

Lemma round_trips_per_call_witness :
  exists rs,
    sent (snd (invoke (script_net []) (ReadFile "a.py") fresh)) = [] ++ rs /\
    Forall (fun r => rq_host r = VStr BRIDGE_HOST /\ rq_port r = VInt 3131) rs /\
    (1 <= List.length rs <= 3)%nat /\
    (is_pipeline (ReadFile "a.py") = false -> List.length rs = 1%nat).
Proof.
  apply (round_trips_per_call (script_net []) (ReadFile "a.py") fresh).
  split; reflexivity.
Defined.

(** C4 as first worded fails: [ask_then_run] can make three round
    trips. *)
Lemma one_round_trip_counterexample :
  ~ (forall (net : network) (c : call) (st : state) (h p : value),
       bound st h p ->
       exists r, sent (snd (invoke net c st)) = sent st ++ [r]).
Proof.
  intros H.
  destruct (H (script_net
                 [Responds 200 (Some (VDict [("files_changed",
                                             VList [VStr "x.py"])]));
                  Responds 200 (Some (VDict [("stdout", VStr "hi")]));
                  Responds 200 (Some json_ok)])
              (AskThenRun "do it" true true) fresh
              (VStr BRIDGE_HOST) (VInt 3131) (conj eq_refl eq_refl))
    as [r Hr].
  vm_compute in Hr. discriminate Hr.
Qed.

(** ** The instance is never written *)

Lemma discover_loop_self (net : network) (ports : list Z) (st : state) :
  self (snd (discover_loop net ports st)) = self st.
Proof.
  revert st. induction ports as [| p rest IH]; intros st; [reflexivity |].
  cbn [discover_loop]. unfold bind at 1.
  unfold try_except, _raw_get, bind, getattr, exchange.
  destruct (dict_lookup (self st) "host") as [h |]; cbn -[discover_loop].
  - destruct (net _ _) as [e | status [[] |]]; cbn -[discover_loop];
      try (rewrite IH; reflexivity).
    destruct (truthy _); cbn -[discover_loop];
      [reflexivity | rewrite IH; reflexivity].
  - apply IH.
Qed.

Lemma invoke_self (net : network) (c : call) (st : state) :
  self (snd (invoke net c st)) = self st.
Proof.
  destruct (runs_invoke net c) as (paths & Hruns & _).
  destruct (Hruns st) as (rs & -> & _). reflexivity.
Qed.

Lemma AgentBridge_fields (net : network) (host : string) (port : option Z)
    (wire w : list request) (d : dict) :
  AgentBridge net host port wire = (Ok d, w) ->
  exists p, d = instance host p.
Proof.
  destruct port as [p |].
  - destruct (Z.eq_dec p 0) as [-> | Hp].
    + rewrite AgentBridge_zero, AgentBridge_scan.
      destruct (scan _ _ _ _) as [[q |] w']; [| discriminate].
      intros H. injection H as <- _. eauto.
    + rewrite AgentBridge_port by assumption.
      intros H. injection H as <- _. eauto.
  - rewrite AgentBridge_scan.
    destruct (scan _ _ _ _) as [[q |] w']; [| discriminate].
    intros H. injection H as <- _. eauto.
Qed.

(** C6. No method writes the instance: after any public call, and after
    [_get], [_post] and [_discover_port], the attribute dict is what it
    was, whether the call returned or raised.  The instance that
    [__init__] builds has the attributes [host] and [port] and no other,
    and a call reads nothing else: on two instances with the same [host]
    and [port] it gives the same result. *)
Theorem client_never_mutated (net : network) (c : call) (st : state) :
  self (snd (invoke net c st)) = self st /\
  (forall path, self (snd (_get net path st)) = self st) /\
  (forall path body timeout,
     self (snd (_post net path body timeout st)) = self st) /\
  self (snd (_discover_port net st)) = self st /\
  (forall host port wire d w,
     AgentBridge net host port wire = (Ok d, w) ->
     dict_keys d = ["host"; "port"]) /\
  (forall st',
     dict_lookup (self st') "host" = dict_lookup (self st) "host" ->
     dict_lookup (self st') "port" = dict_lookup (self st) "port" ->
     sent st' = sent st ->
     fst (invoke net c st') = fst (invoke net c st)).
Proof.
  repeat split.
  - apply invoke_self.
  - intros path. destruct (runs_get net path st) as (rs & -> & _). reflexivity.
  - intros path body timeout.
    destruct (runs_post net path body timeout st) as (rs & -> & _).
    reflexivity.
  - apply discover_loop_self.
  - intros host port wire d w H. apply AgentBridge_fields in H.
    destruct H as [p ->]. reflexivity.
  - intros st' Hh Hp Hs.
    apply (related_invoke net net c st' st).
    repeat split; auto. intros wire r. rewrite Hs. reflexivity.
Qed.

Lemma client_never_mutated_witness :
  dict_keys (instance "127.0.0.1" 3131) = ["host"; "port"].
Proof.
  exact (proj1 (proj2 (proj2 (proj2 (proj2
    (client_never_mutated (script_net [Responds 200 (Some json_ok)])
       Health fresh)))))
    "127.0.0.1" None [] (instance "127.0.0.1" 3131)
    [probe "127.0.0.1" 3131] eq_refl).
Defined.

(** ** No retries *)

(** C7. No request is sent twice.  Building a client probes a leading
    part of the port list, each port once; and within a public call no
    two requests are the same, and a request that met a transport
    failure, a body that is not JSON, or a failure response is the last
    one of the call. *)
Theorem never_retries (net : network) :
  (forall host port wire,
     exists k,
       (k <= 4)%nat /\
       snd (AgentBridge net host port wire)
       = wire ++ map (probe host) (firstn k BRIDGE_PORTS) /\
       NoDup (firstn k BRIDGE_PORTS)) /\
  (forall c st,
     exists rs,
       sent (snd (invoke net c st)) = sent st ++ rs /\
       NoDup rs /\
       forall pre r post,
         rs = pre ++ r :: post ->
         (exists e, net (sent st ++ pre) r = Fails e) \/
         (exists status, net (sent st ++ pre) r = Responds status None) \/
         failure_response (net (sent st ++ pre) r) = true ->
         post = []).
Proof.
  split.
  - intros host port wire.
    assert (Hnodup : forall k, NoDup (firstn k BRIDGE_PORTS)).
    { intros k. apply (sublist_NoDup _ BRIDGE_PORTS).
      - generalize BRIDGE_PORTS. induction k as [| k IH]; intros l; cbn.
        + apply sublist_nil_l.
        + destruct l; [constructor | constructor; apply IH].
      - repeat constructor; cbn; intuition discriminate. }
    assert (Hscan : exists k, (k <= 4)%nat /\
              snd (AgentBridge net host None wire)
              = wire ++ map (probe host) (firstn k BRIDGE_PORTS)).
    { rewrite AgentBridge_scan.
      destruct (scan_prefix net host BRIDGE_PORTS wire) as (k & Hk & E).
      exists k. split; [exact Hk |].
      destruct (scan _ _ _ _) as [[q |] w']; exact E. }
    destruct port as [p |].
    + destruct (Z.eq_dec p 0) as [-> | Hp].
      * rewrite AgentBridge_zero. destruct Hscan as (k & Hk & E). eauto.
      * exists 0%nat. rewrite AgentBridge_port by assumption.
        cbn. rewrite app_nil_r. repeat split; [lia | constructor].
    + destruct Hscan as (k & Hk & E). eauto.
  - intros c st.
    destruct (runs_invoke net c) as (paths & Hruns & Hnd & _).
    destruct (Hruns st) as (rs & Hst & _ & Hps & Hres & _).
    exists rs. repeat split.
    + rewrite Hst. reflexivity.
    + apply (NoDup_of_map rq_path). eapply sublist_NoDup; eauto.
    + intros pre r post -> Hbad.
      apply verdict_Raise in Hbad. destruct Hbad as [e He].
      destruct (fst (invoke net c st)) as [v | e'].
      * apply all_ok_at in Hres. destruct Hres as [d Hd]. congruence.
      * destruct (stopped_at net _ _ _ _ _ _ Hres He) as [-> _]. reflexivity.
Qed.

Lemma never_retries_witness :
  skipn 1 (sent (snd (invoke failing_net (AskThenRun "do it" true true) fresh)))
  = [].
Proof.
  destruct (proj2 (never_retries failing_net)
              (AskThenRun "do it" true true) fresh)
    as (rs & Hrs & _ & Hlast).
  rewrite Hrs. cbn [sent fresh app].
  destruct rs as [| r post]; [reflexivity |].
  apply (Hlast [] r post eq_refl).
  right. right. reflexivity.
Defined.

(** ** Each call stands alone *)

(** C10. The result of a call is a function of its arguments, of
    [host] and [port], and of the answers it gets: two runs of the same
    call, on instances with the same [host] and [port], that are given the
    same answers, end the same way, whatever was sent before and whatever
    else differs.  So a call made after another one ends as it would on
    its own, given the answers it gets. *)
Theorem call_result_self_contained (net1 net2 : network) (c : call)
    (st1 st2 : state) :
  (dict_lookup (self st1) "host" = dict_lookup (self st2) "host" ->
   dict_lookup (self st1) "port" = dict_lookup (self st2) "port" ->
   (forall wire r, net1 (sent st1 ++ wire) r = net2 (sent st2 ++ wire) r) ->
   fst (invoke net1 c st1) = fst (invoke net2 c st2)) /\
  (forall earlier,
     let st := snd (invoke net1 earlier st1) in
     fst (invoke net1 c st)
     = fst (invoke (fun wire r => net1 (sent st ++ wire) r) c
              (mkState (self st1) []))).
Proof.
  split.
  - intros Hh Hp Hn. apply (related_invoke net1 net2 c st1 st2).
    repeat split; assumption.
  - intros earlier st.
    apply (related_invoke net1 (fun wire r => net1 (sent st ++ wire) r) c).
    unfold agree, st. cbn [self sent]. rewrite invoke_self.
    repeat split; reflexivity.
Qed.

Lemma call_result_self_contained_witness :
  fst (invoke (script_net [Responds 200 (Some json_ok)]) Health fresh)
  = fst (invoke (script_net [Fails TimeoutError; Responds 200 (Some json_ok)])
           Health
           (mkState (("note", VStr "x") :: instance BRIDGE_HOST 3131)
              [probe BRIDGE_HOST 3131])).
Proof.
  apply (proj1 (call_result_self_contained
                  (script_net [Responds 200 (Some json_ok)])
                  (script_net [Fails TimeoutError; Responds 200 (Some json_ok)])
                  Health fresh
                  (mkState (("note", VStr "x") :: instance BRIDGE_HOST 3131)
                     [probe BRIDGE_HOST 3131]))).
  - reflexivity.
  - reflexivity.
  - intros wire r. reflexivity.
Defined.

(** * Further properties of the client *)

(** ** Exceptions pass through unchanged *)

Lemma invoke_stops_with (net : network) (c : call) (st : state)
    (pre post : list request) (r : request) (e : exn) :
  sent (snd (invoke net c st)) = sent st ++ pre ++ r :: post ->
  verdict net (sent st ++ pre) r = Raise e ->
  fst (invoke net c st) = Raise e /\ post = [].
Proof.
  intros Hsent Hv.
  destruct (runs_invoke net c) as (paths & Hruns & _).
  destruct (Hruns st) as (rs & Hst & _ & _ & Hres & _).
  rewrite Hst in Hsent. cbn in Hsent. apply app_inv_head in Hsent. subst rs.
  destruct (fst (invoke net c st)) as [v | e'].
  - apply all_ok_at in Hres. destruct Hres as [d Hd]. congruence.
  - destruct (stopped_at net _ _ _ _ _ _ Hres Hv) as [-> ->]. auto.
Qed.

(** X1. No public method catches anything.  When an exchange of a call
    raises from beneath the client -- a transport error, or
    [UnicodeDecodeError], [ValueError] or [RecursionError] out of
    [json.loads] -- the call ends with that very exception; a body that
    is text but malformed JSON ends it with [JSONDecodeError]; a JSON
    body that is not an object ends it with [AttributeError] (no
    [.get]), whatever the status.  In each case nothing more is sent. *)
Theorem errors_reach_caller_unchanged (net : network) (c : call) (st : state)
    (pre post : list request) (r : request) :
  sent (snd (invoke net c st)) = sent st ++ pre ++ r :: post ->
  (forall ne, net (sent st ++ pre) r = Fails ne ->
     fst (invoke net c st) = Raise (NetError ne) /\ post = []) /\
  (forall status, net (sent st ++ pre) r = Responds status None ->
     fst (invoke net c st) = Raise JSONDecodeError /\ post = []) /\
  (forall status v, net (sent st ++ pre) r = Responds status (Some v) ->
     (forall d, v <> VDict d) ->
     fst (invoke net c st) = Raise (AttributeError "get") /\ post = []).
Proof.
  intros Hsent.
  pose proof (invoke_stops_with net c st pre post r) as Hstop.
  unfold verdict in Hstop.
  split; [| split].
  - intros ne Hn. apply Hstop; [exact Hsent |]. rewrite Hn. reflexivity.
  - intros status Hn. apply Hstop; [exact Hsent |]. rewrite Hn. reflexivity.
  - intros status v Hn Hv. apply Hstop; [exact Hsent |]. rewrite Hn.
    destruct v; try reflexivity. exfalso. apply (Hv d). reflexivity.
Qed.

Lemma errors_reach_caller_witness :
  fst (invoke (script_net [Fails TimeoutError]) Health fresh)
  = Raise (NetError TimeoutError) /\ @nil request = [].
Proof.
  apply (proj1 (errors_reach_caller_unchanged
                  (script_net [Fails TimeoutError]) Health fresh [] []
                  (get_request (VStr BRIDGE_HOST) (VInt 3131) "/health")
                  eq_refl)).
  reflexivity.
Defined.

(** ** Building a client *)

Lemma scan_some (net : network) (host : string) (ports : list Z)
    (wire w : list request) (p : Z) :
  scan net host wire ports = (Some p, w) ->
  exists k,
    (k < List.length ports)%nat /\ p = nth k ports 0 /\
    (forall j, (j < k)%nat ->
       qualifies (net (wire ++ map (probe host) (firstn j ports))
                      (probe host (nth j ports 0))) = false) /\
    qualifies (net (wire ++ map (probe host) (firstn k ports))
                   (probe host p)) = true /\
    w = wire ++ map (probe host) (firstn (S k) ports).
Proof.
  revert wire. induction ports as [| q rest IH]; intros wire; cbn [scan];
    [discriminate |].
  destruct (qualifies (net wire (probe host q))) eqn:Eq.
  - intros H. injection H as <- <-. exists 0%nat. cbn.
    rewrite app_nil_r. repeat split; [lia | intros j Hj; lia | exact Eq].
  - intros H. apply IH in H.
    destruct H as (k & Hk & Hp & Hbefore & Hat & Hw).
    exists (S k). cbn. repeat split.
    + lia.
    + exact Hp.
    + intros [| j] Hj; cbn.
      * rewrite app_nil_r. exact Eq.
      * specialize (Hbefore j ltac:(lia)).
        rewrite <- app_assoc in Hbefore. exact Hbefore.
    + rewrite <- app_assoc in Hat. exact Hat.
    + rewrite Hw, <- app_assoc. reflexivity.
Qed.

Lemma scan_None (net : network) (host : string) (ports : list Z)
    (wire w : list request) :
  scan net host wire ports = (None, w) ->
  w = wire ++ map (probe host) ports.
Proof.
  revert wire. induction ports as [| q rest IH]; cbn; intros wire H.
  - injection H as <-. rewrite app_nil_r. reflexivity.
  - destruct (qualifies _); [discriminate |].
    apply IH in H. rewrite H, <- app_assoc. reflexivity.
Qed.

(** Building without a port fails in one way only. *)
Lemma AgentBridge_Raise (net : network) (host : string)
    (wire w : list request) (e : exn) :
  AgentBridge net host None wire = (Raise e, w) ->
  AgentBridge net host None wire
  = (Raise (BridgeError (NoBridgeFound BRIDGE_PORTS)),
     wire ++ map (probe host) BRIDGE_PORTS).
Proof.
  rewrite AgentBridge_scan.
  destruct (scan net host wire BRIDGE_PORTS) as [[p |] w'] eqn:Es;
    [discriminate |].
  intros _. apply scan_None in Es. rewrite Es. reflexivity.
Qed.

(** X2. Building a client ends in one of three ways and no other: with
    the explicit nonzero port and nothing sent; with a port of
    [BRIDGE_PORTS] whose probe was answered by a JSON object with a
    truthy ["ok"], all ports before it having failed to qualify; or with
    [BridgeError].  Whatever the transport raises during discovery never
    reaches the caller. *)
Theorem constructor_outcomes (net : network) (host : string)
    (port : option Z) (wire : list request) :
  (exists p, port = Some p /\ p <> 0 /\
     AgentBridge net host port wire = (Ok (instance host p), wire)) \/
  (exists k,
     (k < List.length BRIDGE_PORTS)%nat /\
     (forall j, (j < k)%nat ->
        qualifies (net (wire ++ map (probe host) (firstn j BRIDGE_PORTS))
                       (probe host (nth j BRIDGE_PORTS 0))) = false) /\
     qualifies (net (wire ++ map (probe host) (firstn k BRIDGE_PORTS))
                    (probe host (nth k BRIDGE_PORTS 0))) = true /\
     AgentBridge net host port wire
     = (Ok (instance host (nth k BRIDGE_PORTS 0)),
        wire ++ map (probe host) (firstn (S k) BRIDGE_PORTS))) \/
  AgentBridge net host port wire
  = (Raise (BridgeError (NoBridgeFound BRIDGE_PORTS)),
     wire ++ map (probe host) BRIDGE_PORTS).
Proof.
  assert (Hnone :
    (exists k,
       (k < List.length BRIDGE_PORTS)%nat /\
       (forall j, (j < k)%nat ->
          qualifies (net (wire ++ map (probe host) (firstn j BRIDGE_PORTS))
                         (probe host (nth j BRIDGE_PORTS 0))) = false) /\
       qualifies (net (wire ++ map (probe host) (firstn k BRIDGE_PORTS))
                      (probe host (nth k BRIDGE_PORTS 0))) = true /\
       AgentBridge net host None wire
       = (Ok (instance host (nth k BRIDGE_PORTS 0)),
          wire ++ map (probe host) (firstn (S k) BRIDGE_PORTS))) \/
    AgentBridge net host None wire
    = (Raise (BridgeError (NoBridgeFound BRIDGE_PORTS)),
       wire ++ map (probe host) BRIDGE_PORTS)).
  { rewrite AgentBridge_scan.
    destruct (scan net host wire BRIDGE_PORTS) as [[p |] w] eqn:Es.
    - left. apply scan_some in Es.
      destruct Es as (k & Hk & -> & Hbefore & Hat & ->).
      exists k. auto.
    - right. apply scan_None in Es. rewrite Es. reflexivity. }
  destruct port as [p |]; [| right; exact Hnone].
  destruct (Z.eq_dec p 0) as [-> | Hp].
  - right. rewrite AgentBridge_zero. exact Hnone.
  - left. exists p. rewrite AgentBridge_port by assumption. auto.
Qed.

(** X3. An explicit nonzero port is taken on trust: no health check is
    made, nothing is sent and building never fails.  So on a machine
    where nothing listens, building with a port succeeds and every later
    call raises the transport's error, while building without a port
    raises [BridgeError]. *)
Theorem explicit_port_is_not_checked (net : network) (host : string) (p : Z)
    (wire : list request) :
  p <> 0 ->
  AgentBridge net host (Some p) wire = (Ok (instance host p), wire) /\
  (forall e c,
     fst (invoke (dead_net e) c (mkState (instance host p) wire))
     = Raise (NetError e)) /\
  (forall e,
     fst (AgentBridge (dead_net e) host None wire)
     = Raise (BridgeError (NoBridgeFound BRIDGE_PORTS))).
Proof.
  intros Hp. split; [apply AgentBridge_port; assumption |]. split.
  - intros e c.
    set (st := mkState (instance host p) wire).
    destruct (runs_invoke (dead_net e) c) as (paths & Hruns & _).
    destruct (Hruns st) as (rs & Hst & _ & _ & _ & Hne).
    specialize (Hne eq_refl (VStr host) (VInt p) (conj eq_refl eq_refl)).
    destruct rs as [| r post]; [congruence |].
    apply (invoke_stops_with (dead_net e) c st [] post r).
    + rewrite Hst. reflexivity.
    + reflexivity.
  - intros e. rewrite AgentBridge_scan. reflexivity.
Qed.

Lemma explicit_port_witness :
  AgentBridge (dead_net ConnectionRefusedError) "127.0.0.1" (Some 8080) []
  = (Ok (instance "127.0.0.1" 8080), []).
Proof.
  apply (proj1 (explicit_port_is_not_checked
                  (dead_net ConnectionRefusedError) "127.0.0.1" 8080 []
                  ltac:(discriminate))).
Defined.

Lemma qualifies_payload (o1 o2 : outcome) :
  payload o1 = payload o2 -> qualifies o1 = qualifies o2.
Proof.
  destruct o1 as [e1 | s1 [v1 |]], o2 as [e2 | s2 [v2 |]]; cbn;
    intros H; try discriminate H; try reflexivity.
  injection H as ->. reflexivity.
Qed.

(** X4. Discovery looks at the decoded body only.  The HTTP status of a
    probe's answer plays no part, and neither does the kind of failure:
    two bridges whose answers carry the same bodies lead to the same
    client and the same probes. *)
Theorem discovery_ignores_status (net1 net2 : network) (host : string)
    (port : option Z) (wire : list request) :
  (forall w r, payload (net1 w r) = payload (net2 w r)) ->
  AgentBridge net1 host port wire = AgentBridge net2 host port wire.
Proof.
  intros Hsame.
  assert (Hscan : forall ports w,
            scan net1 host w ports = scan net2 host w ports).
  { induction ports as [| q rest IH]; intros w; cbn; [reflexivity |].
    rewrite (qualifies_payload _ _ (Hsame w (probe host q))), IH.
    reflexivity. }
  assert (Hnone : AgentBridge net1 host None wire
                  = AgentBridge net2 host None wire).
  { rewrite !AgentBridge_scan, Hscan. reflexivity. }
  destruct port as [p |]; [| exact Hnone].
  destruct (Z.eq_dec p 0) as [-> | Hp].
  - rewrite !AgentBridge_zero. exact Hnone.
  - rewrite !AgentBridge_port by assumption. reflexivity.
Qed.

Lemma discovery_ignores_status_witness :
  AgentBridge (script_net [Responds 503 (Some json_ok)]) "127.0.0.1" None []
  = AgentBridge (script_net [Responds 200 (Some json_ok)]) "127.0.0.1" None [].
Proof.
  apply discovery_ignores_status.
  intros w r. unfold script_net.
  destruct (List.length w) as [| [| n]]; reflexivity.
Defined.

Lemma constructor_outcomes_witness :
  AgentBridge (dead_net TimeoutError) "127.0.0.1" None []
  = (Raise (BridgeError (NoBridgeFound BRIDGE_PORTS)),
     map (probe "127.0.0.1") BRIDGE_PORTS).
Proof.
  destruct (constructor_outcomes (dead_net TimeoutError) "127.0.0.1" None [])
    as [(p & Hp & _) | [(k & _ & _ & Hq & _) | H]].
  - discriminate Hp.
  - discriminate Hq.
  - exact H.
Defined.

(** ** What the unwrapping methods give back *)

(** X5. When the expected key is there, an unwrapping method gives back
    what the bridge put under it, as it is: no conversion and no check of
    its type, so [prompt] can return [None] and [write_file] a string.
    ([run_and_capture], which strips its value, is apart.) *)
Theorem unwrap_returns_value_as_is (net : network) (c : call)
    (key : string) (default : value) (st : state) (h p : value) :
  unwraps c = Some (key, default) ->
  (forall command cwd timeout, c <> RunAndCapture command cwd timeout) ->
  bound st h p ->
  exists r,
    sent (snd (invoke net c st)) = sent st ++ [r] /\
    forall status d v,
      net (sent st) r = Responds status (Some (VDict d)) ->
      failure_response (net (sent st) r) = false ->
      dict_lookup d key = Some v ->
      fst (invoke net c st) = Ok v.
Proof.
  intros Hu Hc Hb.
  destruct c; cbn in Hu; try discriminate; injection Hu as <- <-;
    try (exfalso; eapply Hc; reflexivity);
    cbn [invoke]; unfold_methods; unfold bind;
    first [ rewrite (_get_eq net _ st h p Hb)
          | rewrite (_post_eq net _ _ _ st h p Hb) ];
    (eexists; split;
     [ match goal with
       | |- context [checked ?v ?q ?o] => destruct (checked v q o)
       end; try reflexivity;
       match goal with
       | |- context [py_get ?a ?k ?d] => destruct a
       end; reflexivity
     | intros status d v Hnet Hfail Hkey; rewrite Hnet in *;
       rewrite (checked_back _ _ _ _ Hfail); cbn;
       unfold dict_get; rewrite Hkey; reflexivity ]).
Qed.

Lemma unwrap_returns_value_witness :
  fst (invoke (script_net [Responds 200 (Some (VDict [("text", VNone)]))])
         (Prompt "hi" EmptyString EmptyString 300 None) fresh) = Ok VNone.
Proof.
  destruct (unwrap_returns_value_as_is
              (script_net [Responds 200 (Some (VDict [("text", VNone)]))])
              (Prompt "hi" EmptyString EmptyString 300 None)
              "text" (VStr EmptyString) fresh
              (VStr BRIDGE_HOST) (VInt 3131) eq_refl
              ltac:(discriminate) (conj eq_refl eq_refl))
    as (r & Hr & H).
  cbn in Hr. injection Hr as <-.
  apply (H 200 [("text", VNone)]); reflexivity.
Defined.

(** ** Stripping *)

Lemma lstrip_head (s : string) (c : ascii) (t : string) :
  lstrip s = String c t -> isspace c = false.
Proof.
  induction s as [| x s IH]; cbn; [discriminate |].
  destruct (isspace x) eqn:Ex; [exact IH |].
  intros H. injection H as <- _. exact Ex.
Qed.

Lemma lstrip_split (s : string) :
  exists w, s = (w ++ lstrip s)%string.
Proof.
  induction s as [| x s [w IH]]; cbn.
  - exists EmptyString. reflexivity.
  - destruct (isspace x).
    + exists (String x w). cbn. rewrite <- IH. reflexivity.
    + exists EmptyString. reflexivity.
Qed.

Lemma strip_trimmed (s : string) : trimmed (strip s).
Proof.
  unfold trimmed, strip. split.
  - intros c t H.
    destruct (lstrip_split (str_rev (lstrip s))) as [w Hw].
    apply (f_equal str_rev) in Hw.
    rewrite str_rev_involutive, str_rev_app, H in Hw. cbn in Hw.
    eapply lstrip_head. exact Hw.
  - intros c t. rewrite str_rev_involutive. apply lstrip_head.
Qed.

(** ** The terminal *)

Lemma run_terminal_eq (net : network) (command cwd : string)
    (capture_output : bool) (timeout : Z) (st : state) (h p : value) :
  bound st h p ->
  run_terminal net command cwd capture_output timeout st =
    (checked "POST" "/run-terminal"
       (net (sent st)
          (post_request h p "/run-terminal"
             (run_terminal_body command cwd capture_output timeout)
             (timeout + 15))),
     push st (post_request h p "/run-terminal"
                (run_terminal_body command cwd capture_output timeout)
                (timeout + 15))).
Proof.
  intros Hb. unfold run_terminal. rewrite (_post_eq net _ _ _ st h p Hb).
  destruct cwd, capture_output; reflexivity.
Qed.

(** X6. [run_terminal] sends ["cwd"] only when it is not empty and
    ["timeout"] only when output is captured: a command for the visible
    terminal carries no time limit.  The socket waits 25 seconds longer
    than [timeout] either way.  [run_and_capture] is [run_terminal] with
    capture on, so its request always carries the time limit. *)
Theorem run_terminal_request (net : network) (command cwd : string)
    (capture_output : bool) (timeout : Z) (st : state) (h p : value) :
  bound st h p ->
  let body := run_terminal_body command cwd capture_output timeout in
  sent (snd (run_terminal net command cwd capture_output timeout st))
  = sent st ++ [post_request h p "/run-terminal" body (timeout + 15)] /\
  rq_timeout (post_request h p "/run-terminal" body (timeout + 15))
  = timeout + 25 /\
  dict_lookup body "timeout"
  = (if capture_output then Some (VInt timeout) else None) /\
  dict_lookup body "cwd"
  = (if String.eqb cwd EmptyString then None else Some (VStr cwd)) /\
  sent (snd (run_and_capture net command cwd timeout st))
  = sent st ++ [post_request h p "/run-terminal"
                  (run_terminal_body command cwd true timeout)
                  (timeout + 15)].
Proof.
  intros Hb body. repeat split.
  - rewrite (run_terminal_eq net _ _ _ _ st h p Hb). reflexivity.
  - cbn. lia.
  - unfold body. destruct cwd, capture_output; reflexivity.
  - unfold body. destruct cwd, capture_output; reflexivity.
  - unfold run_and_capture, bind.
    rewrite (run_terminal_eq net _ _ _ _ st h p Hb).
    destruct (checked _ _ _) as [v | e]; [| reflexivity].
    destruct v; try reflexivity.
    cbn. destruct (dict_get d "stdout" (VStr EmptyString)); reflexivity.
Qed.

Lemma run_terminal_request_witness :
  dict_lookup (run_terminal_body "ls" EmptyString false 120) "timeout" = None.
Proof.
  exact (proj1 (proj2 (proj2
    (run_terminal_request (script_net []) "ls" EmptyString false 120 fresh
       (VStr BRIDGE_HOST) (VInt 3131) (conj eq_refl eq_refl))))).
Defined.

(** X7. [run_and_capture] gives back the ["stdout"] of the answer with
    the whitespace at both ends removed, and the empty string when
    ["stdout"] is missing.  A ["stdout"] that is not a string (say
    [null]) makes it raise [AttributeError], after the command was sent
    to run. *)
Theorem run_and_capture_result (net : network) (command cwd : string)
    (timeout : Z) (st : state) (h p : value) (status : Z) (d : dict) :
  bound st h p ->
  let r := post_request h p "/run-terminal"
             (run_terminal_body command cwd true timeout) (timeout + 15) in
  net (sent st) r = Responds status (Some (VDict d)) ->
  failure_response (net (sent st) r) = false ->
  (dict_lookup d "stdout" = None ->
   fst (run_and_capture net command cwd timeout st) = Ok EmptyString) /\
  (forall s, dict_lookup d "stdout" = Some (VStr s) ->
     fst (run_and_capture net command cwd timeout st) = Ok (strip s) /\
     trimmed (strip s)) /\
  (forall v, dict_lookup d "stdout" = Some v -> (forall s, v <> VStr s) ->
     run_and_capture net command cwd timeout st
     = (Raise (AttributeError "strip"), push st r)).
Proof.
  intros Hb r Hnet Hfail.
  assert (E : forall k : value -> M string,
            bind (run_terminal net command cwd true timeout) k st
            = k (VDict d) (push st r)).
  { intros k. unfold bind. rewrite (run_terminal_eq net _ _ _ _ st h p Hb).
    fold r. rewrite Hnet in *. rewrite (checked_back _ _ _ _ Hfail).
    reflexivity. }
  unfold run_and_capture. rewrite E. cbn [py_get]. unfold dict_get.
  repeat split.
  - intros ->. reflexivity.
  - rewrite H. reflexivity.
  - apply (proj1 (strip_trimmed s)).
  - apply (proj2 (strip_trimmed s)).
  - intros v Hv Hns. rewrite Hv. unfold bind, ret.
    destruct v; try reflexivity. exfalso. apply (Hns s). reflexivity.
Qed.

Lemma run_and_capture_result_witness :
  run_and_capture (script_net [Responds 200 (Some (VDict [("stdout", VNone)]))])
    "ls" EmptyString 120 fresh
  = (Raise (AttributeError "strip"),
     push fresh (post_request (VStr BRIDGE_HOST) (VInt 3131) "/run-terminal"
                   (run_terminal_body "ls" EmptyString true 120) 135)).
Proof.
  apply (proj2 (proj2
    (run_and_capture_result
       (script_net [Responds 200 (Some (VDict [("stdout", VNone)]))])
       "ls" EmptyString 120 fresh (VStr BRIDGE_HOST) (VInt 3131) 200
       [("stdout", VNone)] (conj eq_refl eq_refl) eq_refl eq_refl))
    VNone eq_refl).
  discriminate.
Defined.

(** ** Dicts *)

Lemma dict_lookup_set_same (d : dict) (k : string) (v : value) :
  dict_lookup (dict_set d k v) k = Some v.
Proof.
  induction d as [| [k0 v0] d IH]; cbn.
  - rewrite String.eqb_refl. reflexivity.
  - destruct (String.eqb k0 k) eqn:E; cbn; rewrite E; [reflexivity | exact IH].
Qed.

Lemma dict_lookup_set_other (d : dict) (k k' : string) (v : value) :
  k' <> k -> dict_lookup (dict_set d k v) k' = dict_lookup d k'.
Proof.
  intros Hk. induction d as [| [k0 v0] d IH]; cbn.
  - apply not_eq_sym, String.eqb_neq in Hk. rewrite Hk. reflexivity.
  - destruct (String.eqb k0 k) eqn:E; cbn.
    + apply String.eqb_eq in E. subst k0.
      apply not_eq_sym, String.eqb_neq in Hk. rewrite Hk. reflexivity.
    + rewrite IH. reflexivity.
Qed.

Lemma dict_keys_set (d : dict) (k : string) (v : value) :
  dict_keys (dict_set d k v)
  = if existsb (String.eqb k) (dict_keys d)
    then dict_keys d else dict_keys d ++ [k].
Proof.
  unfold dict_keys.
  induction d as [| [k0 v0] d IH]; cbn; [reflexivity |].
  rewrite (String.eqb_sym k k0).
  destruct (String.eqb k0 k); cbn; [reflexivity |].
  rewrite IH. destruct (existsb _ _); reflexivity.
Qed.

(** ** More on the pipeline *)

Section PipelineEdges.

Variable net : network.

Lemma bind_Ok {A B} (m : M A) (k : A -> M B) (st st' : state) (b : B) :
  bind m k st = (Ok b, st') ->
  exists a st1, m st = (Ok a, st1) /\ k a st1 = (Ok b, st').
Proof.
  unfold bind. destruct (m st) as [[a | e] st1]; [eauto | discriminate].
Qed.

Lemma copilot_task_eq (task : string) (st : state) (h p : value) :
  bound st h p ->
  copilot_task net task true 60 DEFAULT_TIMEOUT None EmptyString st =
    (checked "POST" "/copilot-task" (net (sent st) (pipeline_request h p task)),
     push st (pipeline_request h p task)).
Proof. intros Hb. unfold copilot_task. apply _post_eq. exact Hb. Qed.

Lemma trimmed_empty : trimmed EmptyString.
Proof. split; intros c t H; discriminate H. Qed.

Lemma run_and_capture_trimmed (command cwd : string) (timeout : Z)
    (st st' : state) (s : string) :
  run_and_capture net command cwd timeout st = (Ok s, st') -> trimmed s.
Proof.
  unfold run_and_capture. intros H.
  apply bind_Ok in H. destruct H as (result & st1 & _ & H).
  apply bind_Ok in H. destruct H as (out & st2 & _ & H).
  destruct out; try discriminate H.
  cbn in H. injection H as <- _. apply strip_trimmed.
Qed.

Lemma run_first_loop_trimmed (files : list value) (st st' : state)
    (s : string) :
  run_first_loop net files st = (Ok s, st') -> trimmed s.
Proof.
  induction files as [| f rest IH]; cbn.
  - intros H. injection H as <- _. apply trimmed_empty.
  - destruct f; try discriminate.
    destruct (endswith s0 ".py"); [apply run_and_capture_trimmed |].
    destruct (endswith s0 ".js"); [apply run_and_capture_trimmed |].
    exact IH.
Qed.

(** X8. What [ask_then_run] returns is the answer to [/copilot-task]
    with ["run_output"] set to a string: every other key keeps its value,
    a ["run_output"] the bridge sent is overwritten, and a new one goes
    last.  The output has no whitespace at its ends, and it is empty when
    [run_result] is off. *)
Theorem ask_then_run_returns_answer_plus_output (task : string)
    (run_result slack_report : bool) (st : state) (h p v : value) :
  bound st h p ->
  fst (ask_then_run net task run_result slack_report st) = Ok v ->
  exists status d output,
    net (sent st) (pipeline_request h p task)
    = Responds status (Some (VDict d)) /\
    v = VDict (dict_set d "run_output" (VStr output)) /\
    dict_lookup (dict_set d "run_output" (VStr output)) "run_output"
    = Some (VStr output) /\
    (forall k, k <> "run_output" ->
       dict_lookup (dict_set d "run_output" (VStr output)) k
       = dict_lookup d k) /\
    dict_keys (dict_set d "run_output" (VStr output))
    = (if existsb (String.eqb "run_output") (dict_keys d)
       then dict_keys d else dict_keys d ++ ["run_output"]) /\
    trimmed output /\
    (run_result = false -> output = EmptyString).
Proof.
  intros Hb Hv.
  destruct (ask_then_run net task run_result slack_report st)
    as [res st'] eqn:E. cbn in Hv. subst res.
  unfold ask_then_run in E.
  apply bind_Ok in E. destruct E as (result & st1 & Htask & E).
  rewrite (copilot_task_eq task st h p Hb) in Htask.
  injection Htask as Hchk _.
  destruct (net (sent st) (pipeline_request h p task))
    as [e | status [[] |]] eqn:Hnet; cbn in Hchk; try discriminate.
  destruct (negb _ && _); [discriminate |]. injection Hchk as <-.
  apply bind_Ok in E. destruct E as (output & st2 & Hout & E).
  apply bind_Ok in E. destruct E as (u & st3 & _ & E).
  cbn in E. injection E as <- _.
  assert (Htrim : trimmed output).
  { destruct run_result.
    - apply bind_Ok in Hout. destruct Hout as (changed & s1 & _ & Hout).
      destruct (truthy changed).
      + apply bind_Ok in Hout. destruct Hout as (fs & s2 & _ & Hout).
        apply bind_Ok in Hout. destruct Hout as (files & s3 & _ & Hout).
        eapply run_first_loop_trimmed. exact Hout.
      + injection Hout as <- _. apply trimmed_empty.
    - injection Hout as <- _. apply trimmed_empty. }
  exists status, d, output. repeat split.
  - apply dict_lookup_set_same.
  - intros k Hk. apply dict_lookup_set_other. exact Hk.
  - apply dict_keys_set.
  - apply (proj1 Htrim).
  - apply (proj2 Htrim).
  - intros ->. cbn in Hout. injection Hout as <- _. reflexivity.
Qed.

End PipelineEdges.

Lemma ask_then_run_returns_witness :
  exists status d output,
    pipeline_net [] (pipeline_request (VStr BRIDGE_HOST) (VInt 3131) "do it")
    = Responds status (Some (VDict d)) /\
    VDict [("ok", VBool true);
           ("files_changed",
            VList [VStr "README.md"; VStr "x.js"; VStr "y.py"]);
           ("run_output", VStr "hi")]
    = VDict (dict_set d "run_output" (VStr output)).
Proof.
  destruct (ask_then_run_returns_answer_plus_output pipeline_net "do it"
              true true fresh (VStr BRIDGE_HOST) (VInt 3131) _
              (conj eq_refl eq_refl) eq_refl)
    as (status & d & output & H1 & H2 & _).
  exists status, d, output. split; [exact H1 | exact H2].
Defined.

Section PipelineTypes.

Variable net : network.
Variables (task : string) (st : state) (h p : value).
Variables (status : Z) (d : dict).
Hypothesis Hbound : bound st h p.
Hypothesis Hanswer :
  net (sent st) (pipeline_request h p task) = Responds status (Some (VDict d)).
Hypothesis Hgood :
  failure_response (net (sent st) (pipeline_request h p task)) = false.

Lemma ask_then_run_after_task (run_result slack_report : bool) :
  ask_then_run net task run_result slack_report st =
  (output <- (if run_result then
                changed <- py_get (VDict d) "files_changed" VNone ;;
                if truthy changed then
                  fs <- py_getitem (VDict d) "files_changed" ;;
                  files <- py_iter fs ;;
                  run_first_loop net files
                else ret EmptyString
              else ret EmptyString) ;;
   (if slack_report then
      changed <- py_get (VDict d) "files_changed" (VList []) ;;
      joined <- py_join ", " changed ;;
      slack_post net (slack_summary joined output) EmptyString ;;;
      ret tt
    else ret tt) ;;;
   py_setitem (VDict d) "run_output" (VStr output))
    (push st (pipeline_request h p task)).
Proof.
  unfold ask_then_run. unfold bind at 1.
  rewrite (copilot_task_eq net task st h p Hbound).
  rewrite Hanswer in *. rewrite (checked_back _ _ _ _ Hgood). reflexivity.
Qed.

(** X9. A ["files_changed"] that is [null], a boolean or a number is
    not checked for.  With [slack_report] on, or with [run_result] on and
    the value truthy, [ask_then_run] raises [TypeError] once the copilot
    task has run, and sends nothing more; otherwise (no report, value
    falsy) it returns the answer with an empty ["run_output"]. *)
Theorem ask_then_run_files_changed_not_iterable (v : value)
    (run_result slack_report : bool) :
  dict_lookup d "files_changed" = Some v ->
  not_iterable v = true ->
  (slack_report = true \/ (run_result = true /\ truthy v = true) ->
   ask_then_run net task run_result slack_report st
   = (Raise (TypeError "not iterable"),
      push st (pipeline_request h p task))) /\
  (slack_report = false -> run_result = false \/ truthy v = false ->
   ask_then_run net task run_result slack_report st
   = (Ok (VDict (dict_set d "run_output" (VStr EmptyString))),
      push st (pipeline_request h p task))).
Proof.
  intros Hv Hni. rewrite ask_then_run_after_task.
  cbn [py_get py_getitem]. unfold dict_get. rewrite Hv.
  split.
  - intros Hcase.
    destruct run_result, slack_report, (truthy v) eqn:Et;
      try (destruct Hcase as [Hc | [Hc1 Hc2]]; discriminate);
      unfold bind, ret; cbn -[truthy]; rewrite ?Et;
      destruct v; try discriminate Hni; reflexivity.
  - intros -> Hcase.
    destruct run_result, (truthy v) eqn:Et;
      try (destruct Hcase as [Hc | Hc]; discriminate);
      unfold bind, ret; cbn -[truthy]; rewrite ?Et;
      destruct v; try discriminate Hni; reflexivity.
Qed.

Lemma run_first_loop_chars (s : string) (s1 : state) :
  run_first_loop net (map VStr (str_chars s)) s1 = (Ok EmptyString, s1).
Proof.
  induction s as [| c s IH]; [reflexivity |].
  cbn [str_chars map run_first_loop].
  assert (Epy : endswith (String c EmptyString) ".py" = false).
  { destruct c as [[] [] [] [] [] [] [] []]; reflexivity. }
  assert (Ejs : endswith (String c EmptyString) ".js" = false).
  { destruct c as [[] [] [] [] [] [] [] []]; reflexivity. }
  rewrite Epy, Ejs. exact IH.
Qed.

(** X10. When ["files_changed"] arrives as one string instead of a
    list, the loop goes over its characters and none of them ends in
    [.py] or [.js]: no file is run, and [run_result] makes no
    difference. *)
Theorem ask_then_run_files_changed_string (s : string)
    (run_result slack_report : bool) :
  dict_lookup d "files_changed" = Some (VStr s) ->
  ask_then_run net task run_result slack_report st
  = ask_then_run net task false slack_report st /\
  exists rs,
    sent (snd (ask_then_run net task run_result slack_report st))
    = sent st ++ rs /\
    ~ In "/run-terminal" (map rq_path rs).
Proof.
  intros Hs.
  assert (E : ask_then_run net task run_result slack_report st
              = ask_then_run net task false slack_report st).
  { rewrite !ask_then_run_after_task.
    apply bind_cong; [| reflexivity].
    destruct run_result; [| reflexivity].
    cbn [py_get py_getitem]. unfold dict_get. rewrite Hs.
    unfold bind at 1, ret at 1.
    destruct s as [| c s']; [reflexivity |].
    cbn [truthy]. unfold bind at 1, ret at 1.
    unfold bind at 1. cbn [py_iter ret].
    apply run_first_loop_chars. }
  split; [exact E |]. rewrite E.
  destruct (runs_ask_then_run net task false slack_report st)
    as (rs & Hst & _ & Hps & _).
  exists rs. split; [rewrite Hst; reflexivity |].
  intros Hin. eapply sublist_In in Hin; [| exact Hps].
  unfold pipeline_paths in Hin.
  destruct slack_report; cbn in Hin; intuition discriminate.
Qed.

End PipelineTypes.

Lemma ask_then_run_not_iterable_witness :
  ask_then_run (script_net [Responds 200 (Some (VDict [("files_changed", VNone)]))])
    "do it" true true fresh
  = (Raise (TypeError "not iterable"),
     push fresh (pipeline_request (VStr BRIDGE_HOST) (VInt 3131) "do it")).
Proof.
  apply (proj1 (ask_then_run_files_changed_not_iterable
                  (script_net
                     [Responds 200 (Some (VDict [("files_changed", VNone)]))])
                  "do it" fresh (VStr BRIDGE_HOST) (VInt 3131) 200
                  [("files_changed", VNone)] (conj eq_refl eq_refl)
                  eq_refl eq_refl VNone true true eq_refl eq_refl)).
  left. reflexivity.
Defined.

Lemma ask_then_run_string_witness :
  ask_then_run
    (script_net [Responds 200 (Some (VDict [("files_changed", VStr "a.py")]))])
    "do it" true false fresh
  = ask_then_run
      (script_net [Responds 200 (Some (VDict [("files_changed", VStr "a.py")]))])
      "do it" false false fresh.
Proof.
  apply (proj1 (ask_then_run_files_changed_string
                  (script_net
                     [Responds 200
                        (Some (VDict [("files_changed", VStr "a.py")]))])
                  "do it" fresh (VStr BRIDGE_HOST) (VInt 3131) 200
                  [("files_changed", VStr "a.py")] (conj eq_refl eq_refl)
                  eq_refl eq_refl "a.py" true false eq_refl)).
Defined.

(** ** The Slack summary *)

Lemma str_length_app (a b : string) :
  String.length (a ++ b)%string = (String.length a + String.length b)%nat.
Proof. induction a as [| c a IH]; cbn; [| rewrite IH]; reflexivity. Qed.

Lemma str_take_length (n : nat) (s : string) :
  (String.length (str_take n s) <= n)%nat.
Proof.
  revert s. induction n as [| n IH]; intros [| c s]; cbn; try lia.
  specialize (IH s). lia.
Qed.

Lemma str_take_idem (n : nat) (s : string) :
  str_take n (str_take n s) = str_take n s.
Proof.
  revert s. induction n as [| n IH]; intros [| c s]; cbn; try reflexivity.
  rewrite IH. reflexivity.
Qed.

Lemma str_take_truthy (n : nat) (s : string) :
  truthy (VStr (str_take (S n) s)) = truthy (VStr s).
Proof. destruct s; reflexivity. Qed.

(** X11. The Slack text of [ask_then_run] carries at most the first 500
    characters of the output: anything after them has no effect on the
    text, whose length is bounded by that of the list of files plus 541.
    With no output there is no output part, and with no file names the
    text says [none]. *)
Theorem slack_summary_truncates (joined output : string) :
  slack_summary joined output = slack_summary joined (str_take 500 output) /\
  (String.length (slack_summary joined output)
   <= 541 + Nat.max 4 (String.length joined))%nat /\
  slack_summary joined EmptyString
  = ("Task complete." ++ newline ++ "Changed: "
     ++ (if String.eqb joined EmptyString then "none" else joined))%string.
Proof.
  split; [| split].
  - unfold slack_summary. rewrite str_take_truthy, str_take_idem. reflexivity.
  - unfold slack_summary.
    pose proof (str_take_length 500 output) as Ht.
    destruct (truthy (VStr output)), (truthy (VStr joined));
      repeat rewrite str_length_app; cbn [String.length newline chr];
      lia.
  - unfold slack_summary. destruct joined; reflexivity.
Qed.

(** ** Query strings *)

(** X12. The GET methods build their path by plain concatenation: the
    argument goes into the query string as it is, with no escaping.
    [list_dir] with an empty path still sends [?path=], while
    [diagnostics] with an empty path sends no query string at all. *)
Theorem query_strings_are_concatenated (net : network) (st : state)
    (h p : value) (path : string) (ts : Z) :
  bound st h p ->
  sent (snd (read_file net path st))
  = sent st ++ [get_request h p ("/read-file?path=" ++ path)] /\
  sent (snd (list_dir net path st))
  = sent st ++ [get_request h p ("/list-dir?path=" ++ path)] /\
  sent (snd (watch_result net path st))
  = sent st ++ [get_request h p ("/watch-result?id=" ++ path)] /\
  sent (snd (changes_since net ts st))
  = sent st ++ [get_request h p ("/changes-since?ts=" ++ str_of_Z ts)] /\
  sent (snd (diagnostics net path st))
  = sent st ++ [get_request h p
                  (if String.eqb path EmptyString then "/diagnostics"
                   else "/diagnostics?path=" ++ path)] /\
  sent (snd (list_dir net EmptyString st))
  = sent st ++ [get_request h p "/list-dir?path="].
Proof.
  intros Hb.
  assert (Hsent : forall A q (k : value -> M A),
            (forall v, quiet (k v)) ->
            sent (snd (bind (_get net q) k st))
            = sent st ++ [get_request h p q]).
  { intros A q k Hk. unfold bind. rewrite (_get_eq net q st h p Hb).
    destruct (checked _ _ _); [rewrite (proj1 (Hk _ _)) |]; reflexivity. }
  repeat split.
  - unfold read_file. apply Hsent. auto with quiet.
  - unfold list_dir. apply Hsent. auto with quiet.
  - unfold watch_result. apply Hsent. auto with quiet.
  - unfold changes_since. apply Hsent. auto with quiet.
  - unfold diagnostics. rewrite (_get_eq net _ st h p Hb).
    destruct path; reflexivity.
  - unfold list_dir. apply Hsent. auto with quiet.
Qed.

Lemma query_strings_witness :
  sent (snd (read_file (script_net []) "a b&c=d" fresh))
  = [get_request (VStr BRIDGE_HOST) (VInt 3131) "/read-file?path=a b&c=d"].
Proof.
  exact (proj1 (query_strings_are_concatenated (script_net []) fresh
                  (VStr BRIDGE_HOST) (VInt 3131) "a b&c=d" 0
                  (conj eq_refl eq_refl))).
Defined.

(** ** The smoke test *)

Section SmokeTest.

Variable net : network.

Lemma init_of_AgentBridge (host : string) (port : option Z)
    (wire w : list request) (r : result dict) :
  AgentBridge net host port wire = (r, w) ->
  (forall d, r = Ok d ->
     __init__ net host port (mkState [] wire) = (Ok tt, mkState d w)) /\
  (forall e, r = Raise e ->
     exists st', __init__ net host port (mkState [] wire) = (Raise e, st') /\
                 sent st' = w).
Proof.
  unfold AgentBridge.
  destruct (__init__ net host port (mkState [] wire)) as [[[] | e] st'];
    intros H; injection H as <- <-; split; intros x Hx;
    try discriminate Hx; injection Hx as <-.
  - destruct st'; reflexivity.
  - eauto.
Qed.

(** X13. When no bridge is found the script says so and exits with
    code 1, whatever its arguments: it prints the greeting, the error
    and the hint, having probed the four ports and sent nothing else. *)
Theorem smoke_test_without_bridge (argv : list string)
    (wire w : list request) (e : exn) :
  AgentBridge net BRIDGE_HOST None wire = (Raise e, w) ->
  main net argv wire
  = ([connecting_line;
      [Text "ERROR: "; Failure (NoBridgeFound BRIDGE_PORTS)];
      hint_line],
     Exited 1,
     wire ++ map (probe BRIDGE_HOST) BRIDGE_PORTS).
Proof.
  intros H. apply AgentBridge_Raise in H.
  destruct (proj2 (init_of_AgentBridge _ _ _ _ _ H) _ eq_refl)
    as (st' & Hinit & Hw).
  unfold main, smoke_body, io_bind, io_lift. rewrite Hinit, Hw.
  reflexivity.
Qed.

Section Found.

Variables (argv : list string) (wire wire1 : list request) (p : Z).
Hypothesis Hfound :
  AgentBridge net BRIDGE_HOST None wire = (Ok (instance BRIDGE_HOST p), wire1).

Lemma smoke_body_found :
  smoke_body net argv [connecting_line] (mkState [] wire) =
  (match checked "GET" "/health" (net wire1 (health_request p)) with
  | Raise e => fun out st => (Raise e, out, st)
  | Ok h =>
  io_bind (io_lift (py_getitem h "port")) (fun port =>
  io_bind (io_lift (py_getitem h "version")) (fun version =>
  io_bind (print [Text "Connected! Port="; Shown port;
                  Text "  Version="; Shown version]) (fun _ =>
  io_bind (io_lift (py_get h "models" (VList []))) (fun models =>
  io_bind (io_lift (py_len models)) (fun n =>
  io_bind (print [Text "Models available: "; Count n]) (fun _ =>
  io_bind (io_lift (py_get h "workspace" (VStr "N/A"))) (fun workspace =>
  io_bind (print [Text "Workspace: "; Shown workspace]) (fun _ =>
  if existsb (String.eqb "--prompt") argv then
    let q := smoke_question argv in
    io_bind (print [Text (newline ++ "Prompting Copilot: "); Quoted q])
      (fun _ =>
    io_bind (io_lift (prompt net q EmptyString EmptyString DEFAULT_TIMEOUT
                        None)) (fun answer =>
    print [Text "Response: "; Shown answer]))
  else io_ret tt))))))))
  end) [connecting_line]
    (mkState (instance BRIDGE_HOST p) (wire1 ++ [health_request p])).
Proof.
  unfold smoke_body.
  unfold io_bind at 1. unfold io_lift at 1.
  rewrite (proj1 (init_of_AgentBridge _ _ _ _ _ Hfound) _ eq_refl).
  unfold io_bind at 1. unfold io_lift at 1. unfold health.
  rewrite (_get_eq net "/health" (mkState (instance BRIDGE_HOST p) wire1)
             (VStr BRIDGE_HOST) (VInt p) (conj eq_refl eq_refl)).
  cbn [sent push self]. fold (health_request p).
  destruct (checked "GET" "/health" (net wire1 (health_request p)));
    reflexivity.
Qed.

(** X14. Once a bridge is found, only a failure response to [/health]
    is reported as an error with exit code 1.  A transport error on
    [/health] leaves the script as an uncaught exception, and so does a
    health answer without ["port"] or without ["version"] ([KeyError]);
    in those cases only the greeting has been printed. *)
Theorem smoke_test_health_errors :
  (failure_response (net wire1 (health_request p)) = true ->
   exists m,
     main net argv wire
     = ([connecting_line; [Text "ERROR: "; Failure m]; hint_line],
        Exited 1, wire1 ++ [health_request p])) /\
  (forall e, net wire1 (health_request p) = Fails e ->
     main net argv wire
     = ([connecting_line], Uncaught (NetError e),
        wire1 ++ [health_request p])) /\
  (forall status d,
     net wire1 (health_request p) = Responds status (Some (VDict d)) ->
     failure_response (net wire1 (health_request p)) = false ->
     (dict_lookup d "port" = None ->
      main net argv wire
      = ([connecting_line], Uncaught (KeyError "port"),
         wire1 ++ [health_request p])) /\
     (forall v, dict_lookup d "port" = Some v ->
        dict_lookup d "version" = None ->
        main net argv wire
        = ([connecting_line], Uncaught (KeyError "version"),
           wire1 ++ [health_request p]))).
Proof.
  unfold main. rewrite smoke_body_found. split; [| split].
  - intros Hf.
    apply (checked_failure_response "GET" "/health") in Hf.
    destruct Hf as [m ->]. exists m. reflexivity.
  - intros e ->. reflexivity.
  - intros status d Hn Hf. rewrite Hn in *.
    rewrite (checked_back _ _ _ _ Hf). split.
    + intros Hp. unfold io_bind, io_lift, ret. cbn. rewrite Hp. reflexivity.
    + intros v Hp Hv. unfold io_bind, io_lift, ret. cbn.
      rewrite Hp, Hv. reflexivity.
Qed.

(** X15. With a bridge found and a health answer that has ["port"],
    ["version"] and a ["models"] with a length, the script prints four
    lines; without [--prompt] it ends there, having sent the probes and
    one [/health].  With [--prompt] it then sends one [/prompt] whose
    body holds the question and the default timeout, and nothing after
    it. *)
Theorem smoke_test_healthy (status : Z) (d : dict) (port version : value)
    (n : nat) :
  net wire1 (health_request p) = Responds status (Some (VDict d)) ->
  failure_response (net wire1 (health_request p)) = false ->
  dict_lookup d "port" = Some port ->
  dict_lookup d "version" = Some version ->
  fst (py_len (dict_get d "models" (VList [])) (mkState [] [])) = Ok n ->
  let report :=
    [connecting_line;
     [Text "Connected! Port="; Shown port; Text "  Version="; Shown version];
     [Text "Models available: "; Count n];
     [Text "Workspace: "; Shown (dict_get d "workspace" (VStr "N/A"))]] in
  (existsb (String.eqb "--prompt") argv = false ->
   main net argv wire = (report, Finished, wire1 ++ [health_request p])) /\
  (existsb (String.eqb "--prompt") argv = true ->
   snd (main net argv wire)
   = wire1 ++ [health_request p;
               post_request (VStr BRIDGE_HOST) (VInt p) "/prompt"
                 [("prompt", VStr (smoke_question argv));
                  ("timeout", VInt DEFAULT_TIMEOUT)]
                 (DEFAULT_TIMEOUT + 10)]).
Proof.
  intros Hn Hf Hport Hversion Hlen report.
  unfold main. rewrite smoke_body_found. rewrite Hn in *.
  rewrite (checked_back _ _ _ _ Hf).
  assert (Elen : forall s, py_len (dict_get d "models" (VList [])) s
                           = (Ok n, s)).
  { intros s. revert Hlen.
    destruct (dict_get d "models" (VList [])); cbn; try discriminate;
      intros H; injection H as <-; reflexivity. }
  split; intros Hflag; rewrite Hflag;
    unfold io_bind, io_lift, print, io_ret, ret; cbn [py_getitem py_get];
    rewrite Hport, Hversion; cbn [ret]; unfold ret; rewrite Elen.
  - reflexivity.
  - unfold prompt. cbn [truthy opt_files]. unfold bind.
    rewrite (_post_eq net _ _ _
               (mkState (instance BRIDGE_HOST p) (wire1 ++ [health_request p]))
               (VStr BRIDGE_HOST) (VInt p) (conj eq_refl eq_refl)).
    cbn [sent push self].
    destruct (checked "POST" "/prompt" _) as [v | e].
    + destruct v; cbn; rewrite <- app_assoc; reflexivity.
    + destruct e; cbn; rewrite <- app_assoc; reflexivity.
Qed.

End Found.

End SmokeTest.

Lemma smoke_test_without_bridge_witness :
  main (dead_net ConnectionRefusedError) ["agent_template.py"] []
  = ([connecting_line;
      [Text "ERROR: "; Failure (NoBridgeFound BRIDGE_PORTS)];
      hint_line],
     Exited 1,
     map (probe BRIDGE_HOST) BRIDGE_PORTS).
Proof.
  apply (smoke_test_without_bridge (dead_net ConnectionRefusedError)
           ["agent_template.py"] []
           (map (probe BRIDGE_HOST) BRIDGE_PORTS)
           (BridgeError (NoBridgeFound BRIDGE_PORTS))).
  reflexivity.
Defined.


Lemma smoke_test_health_errors_witness :
  main (script_net [Responds 200 (Some json_ok); Fails TimeoutError])
    ["agent_template.py"] []
  = ([connecting_line], Uncaught (NetError TimeoutError),
     [probe BRIDGE_HOST 3131] ++ [health_request 3131]).
Proof.
  apply (proj1 (proj2
    (smoke_test_health_errors
       (script_net [Responds 200 (Some json_ok); Fails TimeoutError])
       ["agent_template.py"] [] [probe BRIDGE_HOST 3131] 3131 eq_refl))
    TimeoutError).
  reflexivity.
Defined.

Lemma smoke_test_healthy_witness :
  main (script_net
          [Responds 200 (Some json_ok);
           Responds 200 (Some (VDict [("port", VInt 3131);
                                      ("version", VStr "1.0")]))])
    ["agent_template.py"] []
  = ([connecting_line;
      [Text "Connected! Port="; Shown (VInt 3131);
       Text "  Version="; Shown (VStr "1.0")];
      [Text "Models available: "; Count 0];
      [Text "Workspace: "; Shown (VStr "N/A")]],
     Finished,
     [probe BRIDGE_HOST 3131] ++ [health_request 3131]).
Proof.
  apply (proj1
    (smoke_test_healthy
       (script_net
          [Responds 200 (Some json_ok);
           Responds 200 (Some (VDict [("port", VInt 3131);
                                      ("version", VStr "1.0")]))])
       ["agent_template.py"] [] [probe BRIDGE_HOST 3131] 3131 eq_refl
       200 [("port", VInt 3131); ("version", VStr "1.0")]
       (VInt 3131) (VStr "1.0") 0%nat
       eq_refl eq_refl eq_refl eq_refl eq_refl)).
  reflexivity.
Defined.

Lemma index_of_app (x : string) (pre rest : list string) :
  ~ In x pre -> index_of x (pre ++ x :: rest) = List.length pre.
Proof.
  induction pre as [| y pre IH]; cbn; intros Hin.
  - rewrite String.eqb_refl. reflexivity.
  - destruct (String.eqb y x) eqn:E.
    + apply String.eqb_eq in E. exfalso. apply Hin. left. exact E.
    + rewrite IH; [reflexivity |]. intros H. apply Hin. right. exact H.
Qed.

(** X16. The question sent to Copilot is made of the words that follow
    the first [--prompt], joined by spaces (a later [--prompt] is one of
    the words); when [--prompt] is the last argument the default question
    is used. *)
Theorem smoke_question_after_flag (pre rest : list string) :
  ~ In "--prompt" pre ->
  smoke_question (pre ++ "--prompt" :: rest)
  = match rest with
    | [] => default_question
    | _ :: _ => str_join " " rest
    end.
Proof.
  intros Hin. unfold smoke_question.
  rewrite (index_of_app _ _ _ Hin), length_app. cbn [List.length].
  replace (List.length pre + 1)%nat with (List.length pre + 1 + 0)%nat by lia.
  destruct rest as [| w rest].
  - cbn [List.length].
    replace (List.length pre + 1 + 0 <? List.length pre + 1)%nat with false
      by (symmetry; apply Nat.ltb_ge; lia).
    reflexivity.
  - cbn [List.length].
    replace (List.length pre + 1 + 0 <? List.length pre + S (S (List.length rest)))%nat
      with true by (symmetry; apply Nat.ltb_lt; lia).
    replace (List.length pre + 1 + 0)%nat with (List.length pre + 1)%nat by lia.
    rewrite skipn_app.
    rewrite skipn_all2 by lia.
    replace (List.length pre + 1 - List.length pre)%nat with 1%nat by lia.
    reflexivity.
Qed.

Lemma smoke_question_witness :
  smoke_question (["agent_template.py"] ++ "--prompt" :: ["Say"; "hi"])
  = "Say hi".
Proof.
  apply (smoke_question_after_flag ["agent_template.py"] ["Say"; "hi"]).
  cbn. intros [H | []]. discriminate H.
Defined.

(** ** The pipeline, request by request *)




